(** * The mini MCP client of mitre-mcp: a shallow embedding

    Source: [clients/python/mini-mcp-client.py], class [MitreMCPClient].

    The client owns a request-id counter, an optional session token and an
    optional HTTP connection handle.  Its methods are embedded as functions
    in a state-and-exception monad over the client's fields and the list of
    requests handed to the transport.  The remote endpoint and the JSON
    decoder of the Python runtime are parameters of the model (class
    [Runtime]); a reference decoder and scripted endpoints are provided so
    that every definition runs on concrete inputs. *)

From Stdlib Require Import List NArith ZArith Bool Lia String Ascii Sorted.
Import ListNotations.

Set Implicit Arguments.
Set Warnings "-register-all".

(** ** Python strings *)

(** A Python [str] is a sequence of Unicode code points. *)
Definition char := N.
Definition str := list char.

(** Literals are written as ASCII strings and read code point by code point. *)
Definition py (s : string) : str :=
  List.map N_of_ascii (list_ascii_of_string s).

Definition LF : char := 10%N.

Fixpoint str_eqb (a b : str) : bool :=
  match a, b with
  | [], [] => true
  | x :: a', y :: b' => N.eqb x y && str_eqb a' b'
  | _, _ => false
  end.

(** [str.isspace] for one code point: the characters [str.strip()] removes. *)
Definition isspace (c : char) : bool :=
  ((9 <=? c) && (c <=? 13) || (28 <=? c) && (c <=? 32)
   || (c =? 133) || (c =? 160) || (c =? 5760)
   || (8192 <=? c) && (c <=? 8202)
   || (c =? 8232) || (c =? 8233) || (c =? 8239) || (c =? 8287)
   || (c =? 12288))%N.

(** [s.lstrip()], [s.rstrip()], [s.strip()] *)
Fixpoint lstrip (s : str) : str :=
  match s with
  | c :: s' => if isspace c then lstrip s' else s
  | [] => []
  end.

Definition rstrip (s : str) : str := rev (lstrip (rev s)).

Definition strip (s : str) : str := rstrip (lstrip s).

(** [s.split(sep)] for a one-character separator: never returns the empty
    list, [''.split('\n')] is [['']]. *)
Fixpoint split (sep : char) (s : str) : list str :=
  match s with
  | [] => [[]]
  | c :: s' =>
      if N.eqb c sep then [] :: split sep s'
      else match split sep s' with
           | l :: ls => (c :: l) :: ls
           | [] => [[c]]
           end
  end.

(** [sep.join(parts)] *)
Fixpoint join (sep : str) (parts : list str) : str :=
  match parts with
  | [] => []
  | [p] => p
  | p :: ps => p ++ sep ++ join sep ps
  end.

(** [s.startswith(p)] *)
Fixpoint startswith (p s : str) : bool :=
  match p, s with
  | [], _ => true
  | x :: p', y :: s' => N.eqb x y && startswith p' s'
  | _ :: _, [] => false
  end.

(** [sub in s] for strings: substring test. *)
Fixpoint str_in (sub s : str) : bool :=
  startswith sub s ||
  match s with
  | [] => false
  | _ :: s' => str_in sub s'
  end.

(** [s.lower()] on the ASCII range, which is all header names use. *)
Definition lower_char (c : char) : char :=
  if ((65 <=? c) && (c <=? 90))%N then (c + 32)%N else c.

Definition lower (s : str) : str := List.map lower_char s.

(** Truthiness of an [Optional[str]]: [None] and [''] are falsy. *)
Definition truthy (o : option str) : bool :=
  match o with
  | Some (_ :: _) => true
  | _ => false
  end.

(** [str(n)] for an [int]. *)
Fixpoint digits_of_uint (d : Decimal.uint) : str :=
  match d with
  | Decimal.Nil => []
  | Decimal.D0 d' => 48%N :: digits_of_uint d'
  | Decimal.D1 d' => 49%N :: digits_of_uint d'
  | Decimal.D2 d' => 50%N :: digits_of_uint d'
  | Decimal.D3 d' => 51%N :: digits_of_uint d'
  | Decimal.D4 d' => 52%N :: digits_of_uint d'
  | Decimal.D5 d' => 53%N :: digits_of_uint d'
  | Decimal.D6 d' => 54%N :: digits_of_uint d'
  | Decimal.D7 d' => 55%N :: digits_of_uint d'
  | Decimal.D8 d' => 56%N :: digits_of_uint d'
  | Decimal.D9 d' => 57%N :: digits_of_uint d'
  end.

Definition str_of_int (z : Z) : str :=
  match Z.to_int z with
  | Decimal.Pos d => digits_of_uint d
  | Decimal.Neg d => 45%N :: digits_of_uint d
  end.

(** ** JSON documents as Python values *)

(** What [json.loads] returns: [None], [bool], [int], [float], [str], [list]
    and [dict].  A [dict] keeps its keys in insertion order and holds each
    key once; a [float] is kept as the numeral it was read from. *)
Inductive Json : Type :=
| JNull
| JBool (b : bool)
| JInt (z : Z)
| JFloat (numeral : str)
| JStr (s : str)
| JList (items : list Json)
| JDict (members : list (str * Json)).

Definition dict := list (str * Json).

(** [d.get(key)] *)
Fixpoint dict_get (d : dict) (key : str) : option Json :=
  match d with
  | [] => None
  | (k, v) :: d' => if str_eqb k key then Some v else dict_get d' key
  end.

(** [key in d] *)
Definition dict_has (d : dict) (key : str) : bool :=
  match dict_get d key with Some _ => true | None => false end.

(** [d[key] = v]: a key already present keeps its position. *)
Fixpoint dict_set (d : dict) (key : str) (v : Json) : dict :=
  match d with
  | [] => [(key, v)]
  | (k, w) :: d' =>
      if str_eqb k key then (k, v) :: d' else (k, w) :: dict_set d' key v
  end.

(** ** A reference decoder for [json.loads]

    Recursive descent over the code points of the text, following the
    grammar the [json] module accepts (RFC 8259 plus the literals [NaN],
    [Infinity] and [-Infinity]); [None] stands for [JSONDecodeError]. *)
Module Decoder.

Definition ch (a : ascii) : char := N_of_ascii a.
Definition isch (a : ascii) (c : char) : bool := N.eqb c (ch a).
Definition QUOTE : char := 34%N.
Definition BACKSLASH : char := 92%N.

Definition is_json_ws (c : char) : bool :=
  isch " " c || N.eqb c 9 || N.eqb c 10 || N.eqb c 13.

Fixpoint skip_ws (s : str) : str :=
  match s with
  | c :: s' => if is_json_ws c then skip_ws s' else s
  | [] => []
  end.

Definition is_digit (c : char) : bool := ((48 <=? c) && (c <=? 57))%N.

Definition hexval (c : char) : option N :=
  if is_digit c then Some (c - 48)%N
  else if ((97 <=? c) && (c <=? 102))%N then Some (c - 87)%N
  else if ((65 <=? c) && (c <=? 70))%N then Some (c - 55)%N
  else None.

Definition hex4 (a b c d : char) : option N :=
  match hexval a, hexval b, hexval c, hexval d with
  | Some x, Some y, Some z, Some w => Some (((x * 16 + y) * 16 + z) * 16 + w)%N
  | _, _, _, _ => None
  end.

Definition simple_escape (c : char) : option char :=
  if N.eqb c QUOTE then Some QUOTE
  else if N.eqb c BACKSLASH then Some BACKSLASH
  else if isch "/" c then Some (ch "/")
  else if isch "b" c then Some 8%N
  else if isch "f" c then Some 12%N
  else if isch "n" c then Some 10%N
  else if isch "r" c then Some 13%N
  else if isch "t" c then Some 9%N
  else None.

Definition is_high_surrogate (u : N) : bool := ((55296 <=? u) && (u <=? 56319))%N.
Definition is_low_surrogate (u : N) : bool := ((56320 <=? u) && (u <=? 57343))%N.
Definition join_surrogates (hi lo : N) : N :=
  (65536 + ((hi - 55296) * 1024 + (lo - 56320)))%N.

Definition push (c : char) (r : option (str * str)) : option (str * str) :=
  match r with
  | Some (k, rest) => Some (c :: k, rest)
  | None => None
  end.

(** The text after an opening quote: the decoded string and what follows
    the closing quote. *)
Fixpoint scan_string (s : str) : option (str * str) :=
  match s with
  | [] => None
  | c :: t =>
      if N.eqb c QUOTE then Some ([], t)
      else if N.eqb c BACKSLASH then
        match t with
        | [] => None
        | e :: t1 =>
            if isch "u" e then
              match t1 with
              | h1 :: h2 :: h3 :: h4 :: t2 =>
                  match hex4 h1 h2 h3 h4 with
                  | None => None
                  | Some u =>
                      match t2 with
                      | b :: u' :: k1 :: k2 :: k3 :: k4 :: t3 =>
                          match hex4 k1 k2 k3 k4 with
                          | Some u2 =>
                              if is_high_surrogate u && N.eqb b BACKSLASH
                                 && isch "u" u' && is_low_surrogate u2
                              then push (join_surrogates u u2) (scan_string t3)
                              else push u (scan_string t2)
                          | None => push u (scan_string t2)
                          end
                      | _ => push u (scan_string t2)
                      end
                  end
              | _ => None
              end
            else
              match simple_escape e with
              | Some d => push d (scan_string t1)
              | None => None
              end
        end
      else if (c <? 32)%N then None
      else push c (scan_string t)
  end.

Fixpoint span_digits (s : str) : str * str :=
  match s with
  | c :: t =>
      if is_digit c then let (ds, r) := span_digits t in (c :: ds, r)
      else ([], s)
  | [] => ([], [])
  end.

Definition int_of_digits (ds : str) : Z :=
  fold_left (fun acc c => (acc * 10 + Z.of_N (c - 48))%Z) ds 0%Z.

(** Integer part of a number: [0] or a non-zero digit followed by digits. *)
Definition scan_int_part (s : str) : option (str * str) :=
  match s with
  | c :: t =>
      if isch "0" c then Some ([c], t)
      else if is_digit c then let (ds, r) := span_digits t in Some (c :: ds, r)
      else None
  | [] => None
  end.

(** Optional fraction: a dot followed by at least one digit. *)
Definition scan_frac (s : str) : str * str :=
  match s with
  | c :: t =>
      if isch "." c then
        match span_digits t with
        | ([], _) => ([], s)
        | (ds, r) => (c :: ds, r)
        end
      else ([], s)
  | [] => ([], [])
  end.

(** Optional exponent: [e] or [E], an optional sign, at least one digit. *)
Definition scan_exp (s : str) : str * str :=
  match s with
  | c :: t =>
      if isch "e" c || isch "E" c then
        let (sign, t') :=
          match t with
          | g :: t1 => if isch "+" g || isch "-" g then ([g], t1) else ([], t)
          | [] => ([], t)
          end in
        match span_digits t' with
        | ([], _) => ([], s)
        | (ds, r) => (c :: sign ++ ds, r)
        end
      else ([], s)
  | [] => ([], [])
  end.

Definition scan_number (s : str) : option (Json * str) :=
  let (sign, s1) :=
    match s with
    | c :: t => if isch "-" c then ([c], t) else ([], s)
    | [] => ([], s)
    end in
  match scan_int_part s1 with
  | None => None
  | Some (ip, r1) =>
      let (fp, r2) := scan_frac r1 in
      let (ep, r3) := scan_exp r2 in
      match fp, ep with
      | [], [] =>
          let v := int_of_digits ip in
          Some (JInt (match sign with [] => v | _ => (- v)%Z end), r3)
      | _, _ => Some (JFloat (sign ++ ip ++ fp ++ ep), r3)
      end
  end.

Definition scan_literal (s : str) : option (Json * str) :=
  if startswith (py "null") s then Some (JNull, skipn 4 s)
  else if startswith (py "true") s then Some (JBool true, skipn 4 s)
  else if startswith (py "false") s then Some (JBool false, skipn 5 s)
  else if startswith (py "NaN") s then Some (JFloat (py "NaN"), skipn 3 s)
  else if startswith (py "Infinity") s then Some (JFloat (py "Infinity"), skipn 8 s)
  else if startswith (py "-Infinity") s then Some (JFloat (py "-Infinity"), skipn 9 s)
  else scan_number s.

Fixpoint parse_value (fuel : nat) (s : str) {struct fuel} : option (Json * str) :=
  match fuel with
  | O => None
  | S fuel' =>
      match s with
      | [] => None
      | c :: t =>
          if N.eqb c QUOTE then
            match scan_string t with
            | Some (k, r) => Some (JStr k, r)
            | None => None
            end
          else if isch "{" c then
            match skip_ws t with
            | c1 :: r1 =>
                if isch "}" c1 then Some (JDict [], r1)
                else parse_members fuel' (c1 :: r1) []
            | [] => None
            end
          else if isch "[" c then
            match skip_ws t with
            | c1 :: r1 =>
                if isch "]" c1 then Some (JList [], r1)
                else parse_elems fuel' (c1 :: r1) []
            | [] => None
            end
          else scan_literal s
      end
  end

with parse_elems (fuel : nat) (s : str) (acc : list Json) {struct fuel}
  : option (Json * str) :=
  match fuel with
  | O => None
  | S fuel' =>
      match parse_value fuel' s with
      | None => None
      | Some (v, r) =>
          match skip_ws r with
          | c :: r1 =>
              if isch "]" c then Some (JList (acc ++ [v]), r1)
              else if isch "," c then parse_elems fuel' (skip_ws r1) (acc ++ [v])
              else None
          | [] => None
          end
      end
  end

with parse_members (fuel : nat) (s : str) (acc : dict) {struct fuel}
  : option (Json * str) :=
  match fuel with
  | O => None
  | S fuel' =>
      match s with
      | q :: t =>
          if N.eqb q QUOTE then
            match scan_string t with
            | None => None
            | Some (key, r) =>
                match skip_ws r with
                | c :: r1 =>
                    if isch ":" c then
                      match parse_value fuel' (skip_ws r1) with
                      | None => None
                      | Some (v, r2) =>
                          match skip_ws r2 with
                          | c2 :: r3 =>
                              if isch "}" c2 then Some (JDict (dict_set acc key v), r3)
                              else if isch "," c2 then
                                parse_members fuel' (skip_ws r3) (dict_set acc key v)
                              else None
                          | [] => None
                          end
                      end
                    else None
                | [] => None
                end
            end
          else None
      | [] => None
      end
  end.

(** [json.loads(s)]: one value between optional whitespace, nothing else.
    The fuel bounds the depth of the descent; two nested calls always
    read at least one character between them. *)
Definition loads (s : str) : option Json :=
  match parse_value (2 * List.length s + 2) (skip_ws s) with
  | Some (v, r) => match skip_ws r with [] => Some v | _ :: _ => None end
  | None => None
  end.

End Decoder.

(** ** Exceptions *)

(** Exception classes the client can meet, with their base class:
    [httpx]'s hierarchy, [json.JSONDecodeError] (a [ValueError]), the
    built-in errors raised by operations on decoded values, and
    [RecursionError], which the decoder raises on nesting too deep. *)
Inductive PyClass : Type :=
| Exception_
| HTTPError_ | RequestError_ | TransportError_ | NetworkError_
| ConnectError_ | TimeoutException_ | HTTPStatusError_
| ValueError_ | JSONDecodeError_
| TypeError_ | AttributeError_ | LookupError_ | KeyError_
| RuntimeError_ | RecursionError_.

Definition base (c : PyClass) : option PyClass :=
  match c with
  | Exception_ => None
  | HTTPError_ => Some Exception_
  | RequestError_ => Some HTTPError_
  | HTTPStatusError_ => Some HTTPError_
  | TransportError_ => Some RequestError_
  | NetworkError_ => Some TransportError_
  | TimeoutException_ => Some TransportError_
  | ConnectError_ => Some NetworkError_
  | ValueError_ => Some Exception_
  | JSONDecodeError_ => Some ValueError_
  | TypeError_ => Some Exception_
  | AttributeError_ => Some Exception_
  | LookupError_ => Some Exception_
  | KeyError_ => Some LookupError_
  | RuntimeError_ => Some Exception_
  | RecursionError_ => Some RuntimeError_
  end.

Definition class_eqb (c d : PyClass) : bool :=
  match c, d with
  | Exception_, Exception_ | HTTPError_, HTTPError_
  | RequestError_, RequestError_ | TransportError_, TransportError_
  | NetworkError_, NetworkError_ | ConnectError_, ConnectError_
  | TimeoutException_, TimeoutException_ | HTTPStatusError_, HTTPStatusError_
  | ValueError_, ValueError_ | JSONDecodeError_, JSONDecodeError_
  | TypeError_, TypeError_ | AttributeError_, AttributeError_
  | LookupError_, LookupError_ | KeyError_, KeyError_
  | RuntimeError_, RuntimeError_ | RecursionError_, RecursionError_ => true
  | _, _ => false
  end.

(** [issubclass(c, d)]: [d] is reached from [c] along the base classes
    (the deepest class is five steps below [Exception]). *)
Fixpoint issubclass_upto (n : nat) (c d : PyClass) : bool :=
  class_eqb c d ||
  match n with
  | O => false
  | S n' => match base c with
            | Some b => issubclass_upto n' b d
            | None => false
            end
  end.

Definition issubclass : PyClass -> PyClass -> bool := issubclass_upto 5.

(** One piece of an f-string: literal text or a formatted value
    ([None] when [dict.get] found nothing). *)
Inductive FPart : Type :=
| FLit (s : str)
| FVal (v : option Json).

Inductive PyExc : Type :=
| ConnectError
| TimeoutException
| HTTPStatusError (status_code : Z)
| JSONDecodeError
| ValueError (message : list FPart)
| TypeError
| AttributeError
| KeyError (key : str)
| RecursionError.

Definition class_of (e : PyExc) : PyClass :=
  match e with
  | ConnectError => ConnectError_
  | TimeoutException => TimeoutException_
  | HTTPStatusError _ => HTTPStatusError_
  | JSONDecodeError => JSONDecodeError_
  | ValueError _ => ValueError_
  | TypeError => TypeError_
  | AttributeError => AttributeError_
  | KeyError _ => KeyError_
  | RecursionError => RecursionError_
  end.

(** [isinstance(e, c)], the test an [except c] clause performs. *)
Definition isinstance (e : PyExc) (c : PyClass) : bool :=
  issubclass (class_of e) c.

Inductive Res (A : Type) : Type :=
| Ok (a : A)
| Raise (e : PyExc).
Arguments Raise {A} e.

(** ** Operations on decoded values *)

(** [key in v] *)
Definition py_in (key : str) (v : Json) : Res bool :=
  match v with
  | JDict d => Ok (dict_has d key)
  | JList l =>
      Ok (existsb (fun x => match x with JStr s => str_eqb s key | _ => false end) l)
  | JStr s => Ok (str_in key s)
  | _ => Raise TypeError
  end.

(** [v[key]] for a string key *)
Definition py_getitem (v : Json) (key : str) : Res Json :=
  match v with
  | JDict d => match dict_get d key with
               | Some x => Ok x
               | None => Raise (KeyError key)
               end
  | _ => Raise TypeError
  end.

(** [v.get(key)] *)
Definition py_get (v : Json) (key : str) : Res (option Json) :=
  match v with
  | JDict d => Ok (dict_get d key)
  | _ => Raise AttributeError
  end.

(** ** The transport *)

(** [httpx.Headers]: names compare case-insensitively, repeated headers
    are joined with a comma. *)
Definition Headers := list (str * str).

Definition headers_get (h : Headers) (key : str) : option str :=
  match List.map snd
          (List.filter (fun kv => str_eqb (lower (fst kv)) (lower key)) h) with
  | [] => None
  | items => Some (join (py ", ") items)
  end.

Definition headers_get_default (h : Headers) (key default : str) : str :=
  match headers_get h key with
  | Some v => v
  | None => default
  end.

Record Response : Type := mkResponse {
  status_code : Z;
  headers : Headers;
  text : str
}.

(** [response.is_success]: the status is in the 2xx range. *)
Definition is_success (r : Response) : bool :=
  ((200 <=? status_code r) && (status_code r <=? 299))%Z.

(** The JSON-RPC request envelope. *)
Record Envelope : Type := mkEnvelope {
  jsonrpc : str;
  id : Z;
  method : str;
  params : Json
}.

(** What the client does to the outside world, in order. *)
Inductive Event : Type :=
| Post (url : str) (json : Envelope) (hdrs : Headers)
| Aclose.

(** What one [post] comes back with: a reply, or one of the two transport
    failures the model follows, a refused connection and a timeout. *)
Inductive PostOutcome : Type :=
| ConnectFailed
| TimedOut
| Replied (r : Response).

(** The handle [httpx.AsyncClient(timeout=...)]. *)
Record AsyncClient : Type := mkAsyncClient { timeout : Z }.

(** The environment of a client: the decoder [json.loads] of the runtime
    and the remote endpoint, which answers each request knowing everything
    that was sent so far.  [json_loads] gives the value of a text of the
    JSON grammar and [None] for a text outside it, on which the decoder
    raises [json.JSONDecodeError].  [json_limit] gives the exception the
    decoder raises instead on a text that runs against a limit of the
    interpreter: a plain [ValueError] for an integer literal of more than
    4300 digits, [RecursionError] for nesting too deep.  The empty text
    runs against none. *)
Class Runtime : Type := {
  json_loads : str -> option Json;
  json_limit : str -> option PyExc;
  json_limit_empty : json_limit [] = None;
  server : list Event -> PostOutcome
}.

(** ** The client *)

Record Client : Type := mkClient {
  base_url : str;
  request_id : Z;
  debug : bool;
  session_id : option str;
  http_client : option AsyncClient
}.

Definition set_request_id (c : Client) (n : Z) : Client :=
  mkClient (base_url c) n (debug c) (session_id c) (http_client c).
Definition set_session_id (c : Client) (s : option str) : Client :=
  mkClient (base_url c) (request_id c) (debug c) s (http_client c).
Definition set_http_client (c : Client) (h : option AsyncClient) : Client :=
  mkClient (base_url c) (request_id c) (debug c) (session_id c) h.

(** The client object together with the record of its transport activity. *)
Record State : Type := mkState {
  self : Client;
  wire : list Event
}.

(** [MitreMCPClient.__init__] *)
Definition __init__ (host : str) (port : Z) (debug : bool) : Client :=
  {| base_url := py "http://" ++ host ++ py ":" ++ str_of_int port ++ py "/mcp";
     request_id := 0;
     debug := debug;
     session_id := None;
     http_client := None |}.

(** Methods run in a state monad that can raise: what a method did to the
    state before raising stays done. *)
Definition M (A : Type) : Type := State -> Res A * State.

Definition ret {A} (a : A) : M A := fun st => (Ok a, st).

Definition raise {A} (e : PyExc) : M A := fun st => (Raise e, st).

Definition bind {A B} (m : M A) (k : A -> M B) : M B :=
  fun st =>
    match m st with
    | (Ok a, st') => k a st'
    | (Raise e, st') => (Raise e, st')
    end.

(** [try: m  except ...: handler] *)
Definition catch {A} (m : M A) (handler : PyExc -> M A) : M A :=
  fun st =>
    match m st with
    | (Ok a, st') => (Ok a, st')
    | (Raise e, st') => handler e st'
    end.

Declare Scope py_scope.
Delimit Scope py_scope with py.
Notation "x <- m ;; k" := (bind m (fun x => k))
  (at level 61, m at next level, right associativity) : py_scope.
Notation "m ;; k" := (bind m (fun _ => k))
  (at level 61, right associativity) : py_scope.
Open Scope py_scope.

Definition lift {A} (r : Res A) : M A := fun st => (r, st).

Definition get_self : M Client := fun st => (Ok (self st), st).

Definition update_self (f : Client -> Client) : M unit :=
  fun st => (Ok tt, mkState (f (self st)) (wire st)).

Definition emit (ev : Event) : M unit :=
  fun st => (Ok tt, mkState (self st) (wire st ++ [ev])).

(** [json.loads(s)]: a value, or the exception the decoder raises. *)
Definition json_loads_res `{RT : Runtime} (s : str) : Res Json :=
  match json_limit s with
  | Some e => Raise e
  | None =>
      match json_loads s with
      | Some v => Ok v
      | None => Raise JSONDecodeError
      end
  end.

(** [await self.http_client.post(url, json=..., headers=...)] *)
Definition post `{RT : Runtime} (url : str) (json : Envelope) (hdrs : Headers)
  : M Response :=
  emit (Post url json hdrs) ;;
  fun st =>
    match server (wire st) with
    | ConnectFailed => (Raise ConnectError, st)
    | TimedOut => (Raise TimeoutException, st)
    | Replied r => (Ok r, st)
    end.

(** [response.raise_for_status()]: raises unless the status is in the 2xx
    range. *)
Definition raise_for_status (r : Response) : M unit :=
  if is_success r then ret tt else raise (HTTPStatusError (status_code r)).

(** [response.json()], for a body whose bytes are the UTF-8 encoding of
    [text] without a byte order mark. *)
Definition response_json `{RT : Runtime} (r : Response) : Res Json :=
  json_loads_res (text r).

(** [if not self.http_client: self.http_client = httpx.AsyncClient(timeout=30.0)] *)
Definition ensure_http_client : M unit :=
  c <- get_self ;;
  match http_client c with
  | Some _ => ret tt
  | None => update_self (fun c => set_http_client c (Some (mkAsyncClient 30)))
  end.

Definition request_headers : Headers :=
  [ (py "Content-Type", py "application/json");
    (py "Accept", py "application/json, text/event-stream") ].

(** The envelope [initialize_session] builds. *)
Definition init_payload (request_id : Z) : Envelope :=
  {| jsonrpc := py "2.0";
     id := request_id;
     method := py "initialize";
     params := JDict
       [ (py "protocolVersion", JStr (py "2024-11-05"));
         (py "capabilities", JDict []);
         (py "clientInfo",
          JDict [ (py "name", JStr (py "mini-mcp-client"));
                  (py "version", JStr (py "1.0.0")) ]) ] |}.

(** [MitreMCPClient.initialize_session] *)
Definition initialize_session `{RT : Runtime} : M unit :=
  update_self (fun c => set_request_id c (request_id c + 1)) ;;
  c <- get_self ;;
  let init_payload := init_payload (request_id c) in
  let headers_ := request_headers in
  ensure_http_client ;;
  response <- post (base_url c) init_payload headers_ ;;
  update_self (fun c =>
    set_session_id c (headers_get (headers response) (py "mcp-session-id"))) ;;
  raise_for_status response.

(** [MitreMCPClient.close] *)
Definition close : M unit :=
  c <- get_self ;;
  match http_client c with
  | Some _ =>
      emit Aclose ;;
      update_self (fun c => set_http_client c None)
  | None => ret tt
  end.

(** The lines of [_parse_sse_response] that collect the payload: strip the
    text, split it at line feeds, keep what follows [data: ] on the lines
    that start with it, and join the pieces. *)
Definition sse_json_data (sse_text : str) : str :=
  let lines := split LF (strip sse_text) in
  let data_lines :=
    fold_left
      (fun data_lines line =>
         if startswith (py "data: ") line
         then data_lines ++ [skipn 6 line]
         else data_lines)
      lines [] in
  join [] data_lines.

(** [MitreMCPClient._parse_sse_response] *)
Definition _parse_sse_response `{RT : Runtime} (sse_text : str) : Res Json :=
  json_loads_res (sse_json_data sse_text).

(** The envelope [call_tool] builds; [arguments or {}] turns [None] and
    the empty mapping into [{}]. *)
Definition tool_payload (request_id : Z) (tool_name : str)
    (arguments : option dict) : Envelope :=
  {| jsonrpc := py "2.0";
     id := request_id;
     method := py "tools/call";
     params := JDict
       [ (py "name", JStr tool_name);
         (py "arguments",
          JDict (match arguments with Some d => d | None => [] end)) ] |}.

(** The response-format test of [call_tool]. *)
Definition is_event_stream (response : Response) : bool :=
  let content_type := headers_get_default (headers response) (py "content-type") [] in
  str_in (py "text/event-stream") content_type.

(** Decoding the body of a successful response. *)
Definition parse_body `{RT : Runtime} (response : Response) : Res Json :=
  if is_event_stream response
  then _parse_sse_response (text response)
  else response_json response.

(** The check for JSON-RPC errors that ends [call_tool]. *)
Definition check_jsonrpc_error (result : Json) : Res Json :=
  match py_in (py "error") result with
  | Raise e => Raise e
  | Ok false => Ok result
  | Ok true =>
      match py_getitem result (py "error") with
      | Raise e => Raise e
      | Ok error =>
          match py_get error (py "code") with
          | Raise e => Raise e
          | Ok code =>
              match py_get error (py "message") with
              | Raise e => Raise e
              | Ok message =>
                  Raise (ValueError [ FLit (py "JSON-RPC Error "); FVal code;
                                      FLit (py ": "); FVal message ])
              end
          end
      end
  end.

(** [if self.session_id: headers["mcp-session-id"] = self.session_id] *)
Definition session_header (c : Client) : Headers :=
  match session_id c with
  | Some sid => if truthy (Some sid) then [(py "mcp-session-id", sid)] else []
  | None => []
  end.

(** [MitreMCPClient.call_tool].  Both handlers print to the error stream
    (not modelled) and re-raise. *)
Definition call_tool `{RT : Runtime} (tool_name : str) (arguments : option dict)
  : M Json :=
  update_self (fun c => set_request_id c (request_id c + 1)) ;;
  c <- get_self ;;
  let payload := tool_payload (request_id c) tool_name arguments in
  catch
    ((if negb (truthy (session_id c)) then initialize_session else ret tt) ;;
     c <- get_self ;;
     let headers_ := request_headers ++ session_header c in
     ensure_http_client ;;
     response <- post (base_url c) payload headers_ ;;
     raise_for_status response ;;
     result <- lift (parse_body response) ;;
     lift (check_jsonrpc_error result))
    (fun e =>
       if isinstance e HTTPError_ then raise e
       else raise e).

(** ** Sequences of calls and what they put on the wire *)

(** One invocation: the tool name and the [arguments] parameter. *)
Definition Call : Type := (str * option dict)%type.

(** Sequential [call_tool] invocations on one client; an exception ends the
    call that raised it, the caller goes on with the next. *)
Fixpoint call_tools `{RT : Runtime} (calls : list Call) (st : State) : State :=
  match calls with
  | [] => st
  | (tool_name, arguments) :: rest =>
      call_tools rest (snd (call_tool tool_name arguments st))
  end.

(** A client right after construction, before any transport activity. *)
Definition fresh (host : str) (port : Z) (debug : bool) : State :=
  mkState (__init__ host port debug) [].

Definition envelopes (w : list Event) : list Envelope :=
  flat_map (fun ev => match ev with
                      | Post _ env _ => [env]
                      | Aclose => []
                      end) w.

Definition is_tool_call (env : Envelope) : bool :=
  str_eqb (method env) (py "tools/call").

Definition is_initialize (env : Envelope) : bool :=
  str_eqb (method env) (py "initialize").

(** Ids of all request envelopes, of the tool-call envelopes, and the
    number of initialization requests, in the order they were sent. *)
Definition request_ids (w : list Event) : list Z :=
  List.map id (envelopes w).

Definition tool_call_ids (w : list Event) : list Z :=
  List.map id (List.filter is_tool_call (envelopes w)).

Definition initialize_count (w : list Event) : nat :=
  List.length (List.filter is_initialize (envelopes w)).

(** The events a step added to the wire. *)
Definition sent_between (before after : State) : list Event :=
  skipn (List.length (wire before)) (wire after).

(** What [call_tool] makes of the reply to the last request it sent. *)
Definition conclude `{RT : Runtime} (o : PostOutcome) : Res Json :=
  match o with
  | ConnectFailed => Raise ConnectError
  | TimedOut => Raise TimeoutException
  | Replied r =>
      if is_success r then
        match parse_body r with
        | Ok result => check_jsonrpc_error result
        | Raise e => Raise e
        end
      else Raise (HTTPStatusError (status_code r))
  end.

(** ** SSE framing as the specification words it *)

(** The suffixes of the lines of [body] that start with [data: ],
    concatenated in order. *)
Definition data_suffixes (lines : list str) : str :=
  List.concat (List.map (skipn 6) (List.filter (startswith (py "data: ")) lines)).

Definition sse_payload (body : str) : str := data_suffixes (split LF body).

(** A frame with one [data: ] line per chunk. *)
Definition sse_frame (chunks : list str) : str :=
  join [LF] (List.map (fun chunk => py "data: " ++ chunk) chunks).

(** The last character of [s] is whitespace. *)
Definition ends_with_space (s : str) : bool :=
  match rev s with
  | c :: _ => isspace c
  | [] => false
  end.



(** A body in the transport framing of the data model: at least one line
    prefixed [data: ], and the suffixes form one JSON document. *)
Definition sse_well_formed `{RT : Runtime} (body : str) : Prop :=
  List.filter (startswith (py "data: ")) (split LF body) <> [] /\
  exists doc, json_loads (sse_payload body) = Some doc.

(** ** Endpoints for worked examples *)

(** The digit limit of integer conversion, for a text that is one
    positive integer literal (the message is abridged). *)
Definition digit_limit (s : str) : option PyExc :=
  match s with
  | c :: t =>
      if ((49 <=? c) && (c <=? 57))%N && forallb Decoder.is_digit t
         && (4300 <? List.length s)%nat
      then Some (ValueError
                   [FLit (py "Exceeds the limit (4300 digits) for integer string conversion")])
      else None
  | [] => None
  end.

(** The reference decoder with a given endpoint. *)
Definition reference (srv : list Event -> PostOutcome) : Runtime :=
  {| json_loads := Decoder.loads;
     json_limit := digit_limit;
     json_limit_empty := eq_refl;
     server := srv |}.

(** Replace the apostrophes of a literal by double quotes. *)
Definition qq (s : string) : str :=
  List.map (fun c => if N.eqb c 39 then 34%N else c) (py s).

Definition json_reply (status : Z) (extra : Headers) (body : str) : PostOutcome :=
  Replied (mkResponse status ((py "content-type", py "application/json") :: extra) body).

Definition sse_reply (body : str) : PostOutcome :=
  Replied (mkResponse 200 [(py "Content-Type", py "text/event-stream; charset=utf-8")] body).

Definition ok_body : str :=
  qq "{'jsonrpc':'2.0','id':1,'result':{'tactics':[{'name':'Persistence'}]}}".

Definition error_body : str :=
  qq "{'jsonrpc':'2.0','id':1,'error':{'code':-32601,'message':'Method not found'}}".

(** Issues the session token [s1] with every reply. *)
Definition session_server : list Event -> PostOutcome :=
  fun _ => json_reply 200 [(py "Mcp-Session-Id", py "s1")] ok_body.

(** The error envelope of [error_body] as decoded, and its [error] member. *)
Definition error_member : dict :=
  [(py "code", JInt (-32601)); (py "message", JStr (py "Method not found"))].

Definition error_envelope : dict :=
  [(py "jsonrpc", JStr (py "2.0")); (py "id", JInt 1);
   (py "error", JDict error_member)].


(** Never sends a session header. *)
Definition sessionless_server : list Event -> PostOutcome :=
  fun _ => json_reply 200 [] ok_body.



(** Rejects every request with status 500 and still sends a session header. *)
Definition failing_server : list Event -> PostOutcome :=
  fun _ => json_reply 500 [(py "mcp-session-id", py "abc")] (py "Internal Server Error").





(** Refuses every connection. *)
Definition unreachable_server : list Event -> PostOutcome :=
  fun _ => ConnectFailed.

(** Answers with a one-event stream, as the FastMCP transport does. *)
Definition stream_server : list Event -> PostOutcome :=
  fun _ => sse_reply (py "event: message" ++ [LF]
                      ++ qq "data: {'jsonrpc':'2.0','id':1,'result':{'tactics':[]}}"
                      ++ [LF]).

Definition get_tactics : Call :=
  (py "get_tactics", Some [(py "domain", JStr (py "enterprise-attack"))]).

Definition demo : State := fresh (py "localhost") 8000 false.

(** A client that already holds the token [s1]. *)
Definition in_session : State :=
  mkState (set_session_id (self demo) (Some (py "s1"))) [].

(** ** Invariants and assumptions used below *)

(** Ids on the wire: tool-call ids grow, no id occurs twice, none exceeds
    the counter. *)
Definition ids_invariant (st : State) : Prop :=
  StronglySorted Z.lt (tool_call_ids (wire st)) /\
  NoDup (request_ids (wire st)) /\
  Forall (fun i => (i <= request_id (self st))%Z) (request_ids (wire st)).

(** The endpoint never sends the session header. *)
Definition never_issues_session `{RT : Runtime} : Prop :=
  forall w r, server w = Replied r ->
              headers_get (headers r) (py "mcp-session-id") = None.

(** The endpoint answers every request with a 2xx status and an envelope
    without an [error] member. *)
Definition always_answers `{RT : Runtime} : Prop :=
  forall w, exists r d,
    server w = Replied r /\ is_success r = true /\
    parse_body r = Ok (JDict d) /\ dict_get d (py "error") = None.

(** ** The two halves of a call, in closed form *)

(** The client once a connection handle exists. *)
Definition opened (c : Client) : Client :=
  set_http_client c
    (Some (match http_client c with
           | Some h => h
           | None => mkAsyncClient 30
           end)).

(** The initialization exchange from a client whose counter was already
    advanced to [request_id c]. *)
Definition init_exchange `{RT : Runtime} (st : State) : Res unit * State :=
  let c := opened (self st) in
  let w := wire st ++ [Post (base_url c) (init_payload (request_id c)) request_headers] in
  match server w with
  | ConnectFailed => (Raise ConnectError, mkState c w)
  | TimedOut => (Raise TimeoutException, mkState c w)
  | Replied r =>
      (if is_success r then Ok tt else Raise (HTTPStatusError (status_code r)),
       mkState (set_session_id c (headers_get (headers r) (py "mcp-session-id"))) w)
  end.

(** Sending the tool-call envelope and concluding from the reply. *)
Definition tool_exchange `{RT : Runtime} (payload : Envelope) (st : State)
  : Res Json * State :=
  let c := opened (self st) in
  let w := wire st ++ [Post (base_url c) payload (request_headers ++ session_header c)] in
  (conclude (server w), mkState c w).

(** Advancing the request-id counter. *)
Definition advance (st : State) : State :=
  mkState (set_request_id (self st) (request_id (self st) + 1)) (wire st).

(** ** The rest of the client: probe, commands and entry point *)

Definition SLASH : char := 47%N.
Definition COLON : char := 58%N.

(** What a [get] on a connection of its own comes back with, by URL. *)
Class Probe : Type := {
  http_get : str -> PostOutcome
}.

(** [MitreMCPClient.test_connection]: the probe opens and closes its own
    connection; an exception of any kind, the [IndexError] of the
    subscript included, is answered with [False]. *)
Definition test_connection `{PB : Probe} : M bool :=
  c <- get_self ;;
  match nth_error (split SLASH (base_url c)) 2 with
  | None => ret false
  | Some authority =>
      match http_get (py "http://" ++ authority) with
      | Replied response => ret (status_code response <? 500)%Z
      | ConnectFailed => ret false
      | TimedOut => ret false
      end
  end.

(** [self.base_url.split(':')[-1].split('/')[0]]: the port named in the
    hint that the HTTP error handler of [call_tool] prints. *)
Definition port_hint (base_url : str) : str :=
  hd [] (split SLASH (last (split COLON base_url) [])).

(** The text [json.dumps(result, indent=...)] stands for, and the help
    text of the argument parser. *)
Inductive Printed : Type :=
| Help
| Dumps (result : Json) (indent : option Z).

(** [MitreMCPClient.format_output] *)
Definition format_output (result : Json) (pretty : bool) : Printed :=
  if pretty then Dumps result (Some 2%Z) else Dumps result None.

(** The sub-commands of the command line. *)
Inductive Command : Type :=
| Techniques | Technique | Tactics | Groups | Group | Software | Mitigations.

(** The parsed command line ([argparse.Namespace]): the global options and
    the options of the sub-commands; an option without default that was
    not given is [None]. *)
Record Namespace : Type := mkNamespace {
  host : str;
  port : Z;
  no_pretty : bool;
  args_debug : bool;
  command : option Command;
  domain : str;
  no_revoked : bool;
  tactic : option str;
  subtechniques : bool;
  descriptions : bool;
  limit : Z;
  offset : Z;
  args_id : option str;
  name : option str;
  malware : bool;
  tools : bool
}.

(** An optional string as a JSON value. *)
Definition json_of_opt (o : option str) : Json :=
  match o with
  | Some s => JStr s
  | None => JNull
  end.

(** [cmd_techniques] *)
Definition cmd_techniques `{RT : Runtime} (args : Namespace) : M Json :=
  if truthy (tactic args) then
    call_tool (py "get_techniques_by_tactic")
      (Some [ (py "tactic_shortname", json_of_opt (tactic args));
              (py "domain", JStr (domain args));
              (py "remove_revoked_deprecated", JBool (no_revoked args)) ])
  else
    call_tool (py "get_techniques")
      (Some [ (py "domain", JStr (domain args));
              (py "include_subtechniques", JBool (subtechniques args));
              (py "include_descriptions", JBool (descriptions args));
              (py "remove_revoked_deprecated", JBool (no_revoked args));
              (py "limit", JInt (limit args));
              (py "offset", JInt (offset args)) ]).

(** [cmd_technique] *)
Definition cmd_technique `{RT : Runtime} (args : Namespace) : M Json :=
  call_tool (py "get_technique_by_id")
    (Some [ (py "technique_id", json_of_opt (args_id args));
            (py "domain", JStr (domain args)) ]).

(** [cmd_tactics] *)
Definition cmd_tactics `{RT : Runtime} (args : Namespace) : M Json :=
  call_tool (py "get_tactics") (Some [ (py "domain", JStr (domain args)) ]).

(** [cmd_groups] *)
Definition cmd_groups `{RT : Runtime} (args : Namespace) : M Json :=
  call_tool (py "get_groups")
    (Some [ (py "domain", JStr (domain args));
            (py "remove_revoked_deprecated", JBool (no_revoked args)) ]).

(** [cmd_group] *)
Definition cmd_group `{RT : Runtime} (args : Namespace) : M Json :=
  call_tool (py "get_techniques_used_by_group")
    (Some [ (py "group_name", json_of_opt (name args));
            (py "domain", JStr (domain args)) ]).

(** The list [cmd_software] builds from the two flags. *)
Definition software_types (args : Namespace) : list str :=
  let software_types := [] in
  let software_types :=
    if malware args then software_types ++ [py "malware"] else software_types in
  let software_types :=
    if tools args then software_types ++ [py "tool"] else software_types in
  match software_types with
  | [] => [py "malware"; py "tool"]
  | _ :: _ => software_types
  end.

(** [cmd_software] *)
Definition cmd_software `{RT : Runtime} (args : Namespace) : M Json :=
  call_tool (py "get_software")
    (Some [ (py "domain", JStr (domain args));
            (py "software_types", JList (List.map JStr (software_types args)));
            (py "remove_revoked_deprecated", JBool (no_revoked args)) ]).

(** [cmd_mitigations] *)
Definition cmd_mitigations `{RT : Runtime} (args : Namespace) : M Json :=
  if truthy (name args) then
    call_tool (py "get_techniques_mitigated_by_mitigation")
      (Some [ (py "mitigation_name", json_of_opt (name args));
              (py "domain", JStr (domain args)) ])
  else
    call_tool (py "get_mitigations")
      (Some [ (py "domain", JStr (domain args));
              (py "remove_revoked_deprecated", JBool (no_revoked args)) ]).

(** [args.func], as [set_defaults] binds it for each sub-command. *)
Definition func `{RT : Runtime} (c : Command) : Namespace -> M Json :=
  match c with
  | Techniques => cmd_techniques
  | Technique => cmd_technique
  | Tactics => cmd_tactics
  | Groups => cmd_groups
  | Group => cmd_group
  | Software => cmd_software
  | Mitigations => cmd_mitigations
  end.

(** How a run of the program ends: the exit status, what went to standard
    output, and the client if one was created. *)
Record Run : Type := mkRun {
  exit_code : Z;
  stdout : list Printed;
  client : option State
}.

(** [main], from the parsed arguments on: without a sub-command the help
    is printed and the program exits with 1; otherwise the command runs on
    a new client, its result is printed, any exception turns into exit
    status 1, and the client is closed in every case. *)
Definition main `{RT : Runtime} (args : Namespace) : Run :=
  match command args with
  | None => mkRun 1 [Help] None
  | Some c =>
      let client := fresh (host args) (port args) (args_debug args) in
      match func c args client with
      | (Ok result, st) =>
          mkRun 0 [format_output result (negb (no_pretty args))]
                (Some (snd (close st)))
      | (Raise e, st) =>
          mkRun 1 [] (Some (snd (close st)))
      end
  end.

(** The tools the integration tests import from the server, each with the
    keyword arguments the tests pass to it. *)
Definition tested_tools : list (str * list str) :=
  [ (py "get_techniques", [py "domain"; py "limit"; py "offset"]);
    (py "get_tactics", [py "domain"]);
    (py "get_groups", [py "domain"]);
    (py "get_software", [py "domain"]);
    (py "get_techniques_by_tactic", [py "tactic_shortname"; py "domain"]);
    (py "get_techniques_used_by_group", [py "group_name"; py "domain"]);
    (py "get_mitigations", [py "domain"]);
    (py "get_techniques_mitigated_by_mitigation", [py "mitigation_name"; py "domain"]);
    (py "get_technique_by_id", [py "technique_id"; py "domain"]) ].

(** The tool and the arguments of a tool-call envelope. *)
Definition called_tool (env : Envelope) : option (str * dict) :=
  match params env with
  | JDict d =>
      match dict_get d (py "name"), dict_get d (py "arguments") with
      | Some (JStr tool), Some (JDict arguments) => Some (tool, arguments)
      | _, _ => None
      end
  | _ => None
  end.

(** The envelope agrees with the tests: its tool is one they import and
    its arguments hold every keyword they pass. *)
Definition agrees_with_tests (env : Envelope) : bool :=
  match called_tool env with
  | Some (tool, arguments) =>
      existsb (fun entry =>
                 str_eqb (fst entry) tool &&
                 forallb (dict_has arguments) (snd entry))
              tested_tools
  | None => false
  end.

(** The headers of the requests on the wire, and the urls. *)
Definition posts (w : list Event) : list (str * Envelope * Headers) :=
  flat_map (fun ev => match ev with
                      | Post url env hdrs => [(url, env, hdrs)]
                      | Aclose => []
                      end) w.

(** An endpoint that answers every request, each reply carrying a
    non-empty session token. *)
Definition always_issues_session `{RT : Runtime} : Prop :=
  forall w, exists r sid,
    server w = Replied r /\
    headers_get (headers r) (py "mcp-session-id") = Some sid /\ sid <> [].

(** A command line for worked examples. *)
Definition tactics_args : Namespace :=
  {| host := py "localhost"; port := 8000; no_pretty := false;
     args_debug := false; command := Some Tactics;
     domain := py "enterprise-attack"; no_revoked := false;
     tactic := None; subtechniques := false; descriptions := false;
     limit := 20; offset := 0; args_id := None; name := None;
     malware := false; tools := false |}.

(** Further endpoints and inputs for worked examples. *)

(** The envelope of [ok_body] as decoded. *)
Definition ok_envelope : dict :=
  [(py "jsonrpc", JStr (py "2.0")); (py "id", JInt 1);
   (py "result",
    JDict [(py "tactics", JList [JDict [(py "name", JStr (py "Persistence"))]])])].

Definition ok_response : Response :=
  mkResponse 200
    [(py "content-type", py "application/json"); (py "Mcp-Session-Id", py "s1")]
    ok_body.

(** A reply in the style of JSON-RPC 1.0: a result and a null error. *)
Definition null_error_envelope : dict :=
  [(py "jsonrpc", JStr (py "2.0")); (py "id", JInt 1);
   (py "result", JDict []); (py "error", JNull)].

Definition null_error_response : Response :=
  mkResponse 200 [(py "content-type", py "application/json")]
    (qq "{'jsonrpc':'2.0','id':1,'result':{},'error':null}").

Definition null_error_server : list Event -> PostOutcome :=
  fun _ => Replied null_error_response.

(** A reply whose body is a JSON array. *)
Definition array_response : Response :=
  mkResponse 200 [(py "content-type", py "application/json")] (py "[1, 2]").

Definition array_server : list Event -> PostOutcome :=
  fun _ => Replied array_response.

(** A host that answers the probe with 404. *)
Definition not_found_probe : Probe :=
  {| http_get := fun _ => json_reply 404 [] [] |}.



(** * Properties *)

(** ** Strings *)

Lemma str_eqb_eq (a b : str) : str_eqb a b = true <-> a = b.
Proof.
  revert b; induction a as [|x a IH]; intros [|y b]; simpl; split;
    try congruence; try discriminate.
  - intros E. apply andb_true_iff in E as [E1 E2].
    apply N.eqb_eq in E1. apply IH in E2. congruence.
  - intros E. injection E as -> ->. rewrite N.eqb_refl. simpl.
    now apply IH.
Qed.

Lemma str_eqb_refl (a : str) : str_eqb a a = true.
Proof. now apply str_eqb_eq. Qed.

Lemma startswith_spec (p s : str) :
  startswith p s = true <-> exists r, s = p ++ r.
Proof.
  revert s; induction p as [|x p IH]; intros s; simpl.
  - split; [intros _; now exists s | reflexivity].
  - destruct s as [|y s].
    + split; [discriminate | intros [r E]; discriminate].
    + rewrite andb_true_iff, N.eqb_eq, IH. split.
      * intros [-> [r ->]]. now exists r.
      * intros [r E]. injection E as -> ->. split; [reflexivity | now exists r].
Qed.

Lemma startswith_app (p r : str) : startswith p (p ++ r) = true.
Proof. apply startswith_spec. now exists r. Qed.

(** [sub in s] holds exactly when [sub] occurs somewhere inside [s]. *)
Lemma str_in_spec (sub s : str) :
  str_in sub s = true <-> exists pre post, s = pre ++ sub ++ post.
Proof.
  induction s as [|c s IH].
  - simpl. rewrite orb_false_r, startswith_spec. split.
    + intros [r E]. now exists [], r.
    + intros [pre [post E]]. destruct pre; [now exists post|discriminate].
  - change (str_in sub (c :: s))
      with (startswith sub (c :: s) || str_in sub s).
    rewrite orb_true_iff, startswith_spec, IH. split.
    + intros [[r E] | [pre [post E]]].
      * now exists [], r.
      * exists (c :: pre), post. simpl. now rewrite E.
    + intros [[|x pre] [post E]].
      * left. now exists post.
      * right. injection E as _ E. now exists pre, post.
Qed.

Lemma lstrip_decompose (s : str) :
  exists ws, s = ws ++ lstrip s /\ Forall (fun c => isspace c = true) ws.
Proof.
  induction s as [|c s [ws [E F]]]; simpl.
  - now exists [].
  - destruct (isspace c) eqn:Hc.
    + exists (c :: ws). split; [simpl; now rewrite <- E | now constructor].
    + now exists [].
Qed.

Lemma rstrip_decompose (s : str) :
  exists ws, s = rstrip s ++ ws /\ Forall (fun c => isspace c = true) ws.
Proof.
  destruct (lstrip_decompose (rev s)) as [ws [E F]].
  exists (rev ws). split.
  - unfold rstrip. rewrite <- rev_app_distr, <- E. now rewrite rev_involutive.
  - now apply Forall_rev.
Qed.

(** ** Lines *)

Lemma split_nonempty (sep : char) (s : str) : split sep s <> [].
Proof.
  destruct s as [|c s]; simpl; [discriminate|].
  destruct (N.eqb c sep); [discriminate|].
  destruct (split sep s); discriminate.
Qed.

(** Appending one character either opens a new empty line or extends the
    last line. *)
Lemma split_snoc (sep : char) (s : str) (c : char) :
  split sep (s ++ [c]) =
  if N.eqb c sep then split sep s ++ [[]]
  else removelast (split sep s) ++ [last (split sep s) [] ++ [c]].
Proof.
  induction s as [|x s IH]; simpl.
  - now destruct (N.eqb c sep).
  - rewrite IH. pose proof (split_nonempty sep s) as NE.
    destruct (N.eqb x sep); destruct (N.eqb c sep).
    + reflexivity.
    + destruct (split sep s) as [|l ls]; [congruence|]. reflexivity.
    + destruct (split sep s) as [|l ls]; [congruence|]. reflexivity.
    + destruct (split sep s) as [|l ls]; [congruence|].
      destruct ls as [|l' ls]; reflexivity.
Qed.

Lemma data_suffixes_app (xs ys : list str) :
  data_suffixes (xs ++ ys) = data_suffixes xs ++ data_suffixes ys.
Proof.
  unfold data_suffixes. now rewrite filter_app, map_app, concat_app.
Qed.

Lemma join_empty (parts : list str) : join [] parts = List.concat parts.
Proof.
  induction parts as [|p ps IH]; [reflexivity|].
  destruct ps as [|p' ps]; [simpl; now rewrite app_nil_r|].
  change (join [] (p :: p' :: ps)) with (p ++ [] ++ join [] (p' :: ps)).
  now rewrite IH.
Qed.

Lemma collect_data_lines (lines acc : list str) :
  fold_left
    (fun data_lines line =>
       if startswith (py "data: ") line
       then data_lines ++ [skipn 6 line]
       else data_lines)
    lines acc
  = acc ++ List.map (skipn 6) (List.filter (startswith (py "data: ")) lines).
Proof.
  revert acc; induction lines as [|l ls IH]; intros acc.
  - simpl. now rewrite app_nil_r.
  - cbn [fold_left List.filter]. rewrite IH.
    destruct (startswith (py "data: ") l); [|reflexivity].
    cbn [List.map]. now rewrite <- app_assoc.
Qed.

(** The loop of [_parse_sse_response] computes the data suffixes of the
    stripped text. *)
Lemma sse_json_data_strip (sse_text : str) :
  sse_json_data sse_text = sse_payload (strip sse_text).
Proof.
  unfold sse_json_data, sse_payload, data_suffixes.
  now rewrite join_empty, collect_data_lines.
Qed.

Lemma data_suffixes_one (l : str) :
  data_suffixes [l] = if startswith (py "data: ") l then skipn 6 l else [].
Proof.
  unfold data_suffixes. cbn [List.filter].
  destruct (startswith (py "data: ") l); simpl; [now rewrite app_nil_r | reflexivity].
Qed.

Lemma skipn_data_prefix (r : str) : skipn 6 (py "data: " ++ r) = r.
Proof. reflexivity. Qed.

Lemma exists_last_or_nil (r : str) : r = [] \/ exists r' c, r = r' ++ [c].
Proof.
  induction r as [|c r' _] using rev_ind; [now left | right; now exists r', c].
Qed.

(** A line that becomes a data line by gaining one character was the bare
    marker without its final blank. *)
Lemma startswith_snoc (p x : str) (c : char) :
  startswith p (x ++ [c]) = true ->
  startswith p x = true \/ x ++ [c] = p.
Proof.
  intros E. apply startswith_spec in E as [r E].
  destruct (exists_last_or_nil r) as [-> | [r' [c' ->]]].
  - right. now rewrite app_nil_r in E.
  - left. rewrite app_assoc in E. apply app_inj_tail in E as [-> _].
    apply startswith_app.
Qed.

Lemma sse_payload_snoc (t : str) (c : char) :
  sse_payload (t ++ [c]) = sse_payload t \/
  sse_payload (t ++ [c]) = sse_payload t ++ [c].
Proof.
  unfold sse_payload. rewrite split_snoc.
  destruct (N.eqb c LF).
  - left. rewrite data_suffixes_app, data_suffixes_one. simpl.
    now rewrite app_nil_r.
  - destruct (exists_last (split_nonempty LF t)) as [ls [x ->]].
    rewrite removelast_last, last_last.
    rewrite !data_suffixes_app, !data_suffixes_one.
    destruct (startswith (py "data: ") (x ++ [c])) eqn:E1.
    + destruct (startswith_snoc _ _ _ E1) as [E2 | E2].
      * right. rewrite E2. apply startswith_spec in E2 as [r2 ->].
        rewrite <- (app_assoc (py "data: ") r2 [c]).
        rewrite !skipn_data_prefix. now rewrite app_assoc.
      * left. rewrite E2.
        assert (Hs : startswith (py "data: ") x = false).
        { destruct (startswith (py "data: ") x) eqn:E3; [|reflexivity].
          apply startswith_spec in E3 as [r3 E3]. rewrite E3 in E2.
          apply (f_equal (@List.length char)) in E2.
          rewrite !length_app in E2. simpl in E2. lia. }
        rewrite Hs. reflexivity.
    + left. destruct (startswith (py "data: ") x) eqn:E2; [|reflexivity].
      apply startswith_spec in E2 as [r2 E2]. rewrite E2, <- app_assoc in E1.
      now rewrite startswith_app in E1.
Qed.

(** Trailing whitespace either leaves the payload alone or shows up at its
    end. *)
Lemma ends_with_space_snoc (s : str) (c : char) :
  ends_with_space (s ++ [c]) = isspace c.
Proof. unfold ends_with_space. now rewrite rev_app_distr. Qed.

Lemma sse_payload_trailing (t ws : str) :
  Forall (fun c => isspace c = true) ws ->
  sse_payload (t ++ ws) = sse_payload t \/
  ends_with_space (sse_payload (t ++ ws)) = true.
Proof.
  induction ws as [|c ws IH] using rev_ind; intros F.
  - left. now rewrite app_nil_r.
  - apply Forall_app in F as [Fws Fc]. inversion Fc as [|? ? Hc _]; subst.
    rewrite app_assoc.
    destruct (sse_payload_snoc (t ++ ws) c) as [E | E]; rewrite E.
    + destruct (IH Fws) as [E' | E']; [left | right]; assumption.
    + right. now rewrite ends_with_space_snoc.
Qed.

(** On a text without leading whitespace whose payload does not end in
    whitespace, stripping changes nothing the parser looks at. *)
Lemma sse_json_data_unstripped (sse_text : str) :
  lstrip sse_text = sse_text ->
  ends_with_space (sse_payload sse_text) = false ->
  sse_json_data sse_text = sse_payload sse_text.
Proof.
  intros Hl Hr. rewrite sse_json_data_strip. unfold strip. rewrite Hl.
  destruct (rstrip_decompose sse_text) as [ws [E F]].
  destruct (sse_payload_trailing (rstrip sse_text) F) as [E' | E'];
    rewrite <- E in E'; [now symmetry | congruence].
Qed.

Lemma split_line (l : str) : ~ In LF l -> split LF l = [l].
Proof.
  induction l as [|c l IH]; intros NI; [reflexivity|].
  simpl. destruct (N.eqb c LF) eqn:Ec.
  - apply N.eqb_eq in Ec. exfalso. apply NI. now left.
  - rewrite IH; [reflexivity|]. intros HI. apply NI. now right.
Qed.

Lemma split_line_break (l rest : str) :
  ~ In LF l -> split LF (l ++ LF :: rest) = l :: split LF rest.
Proof.
  induction l as [|c l IH]; intros NI; [reflexivity|].
  simpl. destruct (N.eqb c LF) eqn:Ec.
  - apply N.eqb_eq in Ec. exfalso. apply NI. now left.
  - rewrite IH; [reflexivity|]. intros HI. apply NI. now right.
Qed.

Lemma split_join (lines : list str) :
  lines <> [] ->
  Forall (fun l => ~ In LF l) lines ->
  split LF (join [LF] lines) = lines.
Proof.
  induction lines as [|l ls IH]; intros NE F; [congruence|].
  inversion F as [|? ? Hl Hls]; subst.
  destruct ls as [|l' ls].
  - simpl. now apply split_line.
  - change (join [LF] (l :: l' :: ls)) with (l ++ LF :: join [LF] (l' :: ls)).
    rewrite split_line_break by assumption.
    rewrite IH; [reflexivity | discriminate | assumption].
Qed.

Lemma data_suffixes_frame (chunks : list str) :
  data_suffixes (List.map (fun chunk => py "data: " ++ chunk) chunks)
  = List.concat chunks.
Proof.
  induction chunks as [|ch chs IH]; [reflexivity|].
  change (List.map (fun chunk => py "data: " ++ chunk) (ch :: chs))
    with ([py "data: " ++ ch] ++ List.map (fun chunk => py "data: " ++ chunk) chs).
  rewrite data_suffixes_app, data_suffixes_one, startswith_app, IH.
  reflexivity.
Qed.

Lemma sse_payload_frame (chunks : list str) :
  Forall (fun chunk => ~ In LF chunk) chunks ->
  sse_payload (sse_frame chunks) = List.concat chunks.
Proof.
  intros F. unfold sse_payload, sse_frame.
  destruct chunks as [|ch chs]; [reflexivity|].
  rewrite split_join.
  - apply data_suffixes_frame.
  - discriminate.
  - apply Forall_map. revert F. apply Forall_impl. intros chunk NI HI.
    apply in_app_or in HI as [HI | HI]; [|contradiction].
    simpl in HI. unfold LF in HI.
    repeat (destruct HI as [HI | HI]; [discriminate|]). contradiction.
Qed.

Lemma lstrip_frame (chunks : list str) :
  lstrip (sse_frame chunks) = sse_frame chunks.
Proof.
  unfold sse_frame. destruct chunks as [|ch [|ch' chs]]; reflexivity.
Qed.

(** ** The client, step by step *)

Local Open Scope Z_scope.

Section Client.
Context `{RT : Runtime}.

Lemma ensure_http_client_eq (st : State) :
  ensure_http_client st = (Ok tt, mkState (opened (self st)) (wire st)).
Proof.
  destruct st as [[u n d s [h|]] w]; reflexivity.
Qed.

Lemma initialize_session_eq (st : State) :
  initialize_session st = init_exchange (advance st).
Proof.
  unfold initialize_session, init_exchange, advance, bind, post, emit.
  cbn [update_self get_self self wire].
  rewrite ensure_http_client_eq. cbn [self wire].
  destruct st as [[u n d s h] w]. cbn.
  destruct (server _) as [| |r]; try reflexivity.
  unfold raise_for_status. destruct (is_success r); reflexivity.
Qed.

Lemma catch_reraise {A} (m : M A) (st : State) :
  catch m (fun e => if isinstance e HTTPError_ then raise e else raise e) st = m st.
Proof.
  unfold catch. destruct (m st) as [[a|e] st']; [reflexivity|].
  destruct (isinstance e HTTPError_); reflexivity.
Qed.

(** [call_tool] advances the counter, runs the initialization exchange when
    no session token is held, and then the tool exchange. *)
Lemma call_tool_eq (tool_name : str) (arguments : option dict) (st : State) :
  call_tool tool_name arguments st =
  let payload := tool_payload (request_id (self st) + 1) tool_name arguments in
  if truthy (session_id (self st)) then tool_exchange payload (advance st)
  else match initialize_session (advance st) with
       | (Ok _, st2) => tool_exchange payload st2
       | (Raise e, st2) => (Raise e, st2)
       end.
Proof.
  unfold call_tool, bind at 1 2. cbn [update_self get_self self wire].
  rewrite catch_reraise. fold (advance st).
  assert (Hx : forall st2,
    (c <- get_self;;
     (let headers_ := request_headers ++ session_header c in
      ensure_http_client;;
      response <- post (base_url c)
        (tool_payload (request_id (set_request_id (self st) (request_id (self st) + 1)))
           tool_name arguments) headers_;;
      raise_for_status response;;
      result <- lift (parse_body response);; lift (check_jsonrpc_error result))) st2
    = tool_exchange (tool_payload (request_id (self st) + 1) tool_name arguments) st2).
  { intros st2. unfold bind, post, emit, tool_exchange, conclude, lift, raise_for_status.
    cbn [get_self]. rewrite ensure_http_client_eq. cbn [self wire].
    destruct st2 as [[u n d s h] w]. cbn.
    destruct (server _) as [| |r]; try reflexivity.
    destruct (is_success r); [|reflexivity].
    cbn. destruct (parse_body r); reflexivity. }
  cbn [session_id set_request_id].
  destruct (truthy (session_id (self st))); cbn [negb].
  - unfold bind at 1. unfold ret at 1. apply Hx.
  - unfold bind at 1. destruct (initialize_session (advance st)) as [[[]|e] st2].
    + apply Hx.
    + reflexivity.
Qed.

(** Whatever happens, the outcome of [call_tool] is decided by the reply to
    the last request on the wire. *)
Lemma call_tool_outcome (tool_name : str) (arguments : option dict) (st : State) :
  fst (call_tool tool_name arguments st)
  = conclude (server (wire (snd (call_tool tool_name arguments st)))).
Proof.
  rewrite call_tool_eq. cbv zeta.
  destruct (truthy (session_id (self st))); [reflexivity|].
  rewrite initialize_session_eq. unfold init_exchange.
  destruct (server _) as [| |r] eqn:E; cbn [fst snd wire].
  - now rewrite E.
  - now rewrite E.
  - destruct (is_success r) eqn:S; cbn [fst snd wire]; [reflexivity|].
    rewrite E. cbn [conclude]. now rewrite S.
Qed.

(** The three shapes of a call: the tool exchange alone when a token is
    held; otherwise the initialization exchange, followed by the tool
    exchange unless initialization raised. *)
Lemma call_tool_shape (tool_name : str) (arguments : option dict) (st : State) :
  let st' := snd (call_tool tool_name arguments st) in
  let rid := request_id (self st) in
  let url := base_url (self st) in
  base_url (self st') = url /\
  ((truthy (session_id (self st)) = true /\
    session_id (self st') = session_id (self st) /\
    request_id (self st') = rid + 1 /\
    exists hdrs,
      wire st' = wire st ++ [Post url (tool_payload (rid + 1) tool_name arguments) hdrs])
   \/
   (truthy (session_id (self st)) = false /\
    request_id (self st') = rid + 2 /\
    wire st' = wire st ++ [Post url (init_payload (rid + 2)) request_headers] /\
    exists e, fst (call_tool tool_name arguments st) = Raise e /\
              isinstance e HTTPError_ = true)
   \/
   (truthy (session_id (self st)) = false /\
    request_id (self st') = rid + 2 /\
    exists hdrs,
      wire st' = wire st ++ [Post url (init_payload (rid + 2)) request_headers;
                             Post url (tool_payload (rid + 1) tool_name arguments) hdrs])).
Proof.
  rewrite call_tool_eq. cbv zeta.
  destruct st as [[u n d s h] w]. cbn [self wire request_id base_url session_id].
  destruct (truthy s) eqn:T.
  - split; [reflexivity|]. left. cbn. repeat split. eexists. reflexivity.
  - rewrite initialize_session_eq. unfold init_exchange, advance.
    cbn [self wire request_id base_url session_id opened set_request_id set_http_client].
    replace (n + 1 + 1) with (n + 2) by lia.
    destruct (server _) as [| |r].
    + split; [reflexivity|]. right. left. cbn. repeat split.
      now exists ConnectError.
    + split; [reflexivity|]. right. left. cbn. repeat split.
      now exists TimeoutException.
    + destruct (is_success r).
      * split; [reflexivity|]. right. right. cbn. repeat split.
        eexists. rewrite <- app_assoc. reflexivity.
      * split; [reflexivity|]. right. left. cbn. repeat split.
        now exists (HTTPStatusError (status_code r)).
Qed.

Lemma sent_between_app (st st' : State) (evs : list Event) :
  wire st' = wire st ++ evs -> sent_between st st' = evs.
Proof.
  intros E. unfold sent_between. rewrite E, skipn_app, skipn_all, Nat.sub_diag.
  reflexivity.
Qed.

Lemma envelopes_app (w1 w2 : list Event) :
  envelopes (w1 ++ w2) = envelopes w1 ++ envelopes w2.
Proof. unfold envelopes. now rewrite flat_map_app. Qed.

Lemma request_ids_app (w1 w2 : list Event) :
  request_ids (w1 ++ w2) = request_ids w1 ++ request_ids w2.
Proof. unfold request_ids. now rewrite envelopes_app, map_app. Qed.

Lemma tool_call_ids_app (w1 w2 : list Event) :
  tool_call_ids (w1 ++ w2) = tool_call_ids w1 ++ tool_call_ids w2.
Proof. unfold tool_call_ids. now rewrite envelopes_app, filter_app, map_app. Qed.

Lemma initialize_count_app (w1 w2 : list Event) :
  initialize_count (w1 ++ w2) = (initialize_count w1 + initialize_count w2)%nat.
Proof.
  unfold initialize_count. now rewrite envelopes_app, filter_app, length_app.
Qed.

Lemma tool_call_ids_incl (w : list Event) :
  incl (tool_call_ids w) (request_ids w).
Proof.
  unfold tool_call_ids, request_ids. intros i Hi.
  apply in_map_iff in Hi as [env [E Hin]]. apply filter_In in Hin as [Hin _].
  apply in_map_iff. now exists env.
Qed.

(** What one call adds to the wire, summarised. *)
Lemma call_tool_wire (tool_name : str) (arguments : option dict) (st : State) :
  let st' := snd (call_tool tool_name arguments st) in
  let sent := sent_between st st' in
  let rid := request_id (self st) in
  wire st' = wire st ++ sent /\
  request_id (self st') = rid + 1 + Z.of_nat (initialize_count sent) /\
  initialize_count sent = (if truthy (session_id (self st)) then 0 else 1)%nat /\
  (tool_call_ids sent = [rid + 1] \/
   tool_call_ids sent = [] /\
   exists e, fst (call_tool tool_name arguments st) = Raise e /\
             isinstance e HTTPError_ = true).
Proof.
  cbv zeta.
  destruct (call_tool_shape tool_name arguments st) as [_ Hs]. cbv zeta in Hs.
  destruct Hs as [[T [_ [R [hd W]]]] | [[T [R [W X]]] | [T [R [hd W]]]]];
    rewrite (sent_between_app _ _ _ W), T, R; rewrite <- W;
    cbn; repeat split; auto; lia.
Qed.

End Client.

(** ** Request ids *)

Lemma StronglySorted_snoc (l : list Z) (x : Z) :
  StronglySorted Z.lt l -> Forall (fun y => y < x) l ->
  StronglySorted Z.lt (l ++ [x]).
Proof.
  induction l as [|a l IH]; intros S F; simpl.
  - repeat constructor.
  - inversion S as [|? ? S' Fa]; subst. inversion F as [|? ? Hax F']; subst.
    constructor; [now apply IH|].
    apply Forall_app. split; [assumption | now repeat constructor].
Qed.

Section Ids.
Context `{RT : Runtime}.

Lemma ids_invariant_call_tool (tool_name : str) (arguments : option dict) (st : State) :
  ids_invariant st -> ids_invariant (snd (call_tool tool_name arguments st)).
Proof.
  intros [S [N B]]. unfold ids_invariant.
  assert (Bt : Forall (fun i => i <= request_id (self st)) (tool_call_ids (wire st))).
  { apply Forall_forall. intros i Hi. apply tool_call_ids_incl in Hi.
    revert i Hi. now apply Forall_forall. }
  assert (Lt : forall k, 0 < k ->
            Forall (fun y => y < request_id (self st) + k) (tool_call_ids (wire st))).
  { intros k Hk. revert Bt. apply Forall_impl. intros; lia. }
  assert (Le : forall k, 0 <= k ->
            Forall (fun i => i <= request_id (self st) + k) (request_ids (wire st))).
  { intros k Hk. revert B. apply Forall_impl. intros; lia. }
  assert (Fresh : forall k, 0 < k -> ~ In (request_id (self st) + k) (request_ids (wire st))).
  { intros k Hk Hin. rewrite Forall_forall in B. apply B in Hin. lia. }
  destruct (call_tool_shape tool_name arguments st) as [_ Hs]. cbv zeta in Hs.
  destruct Hs as [[_ [_ [R [hd W]]]] | [[_ [R [W _]]] | [_ [R [hd W]]]]];
    rewrite W, R, tool_call_ids_app, request_ids_app; cbn; repeat split.
  - apply StronglySorted_snoc; [assumption | apply Lt; lia].
  - apply NoDup_app; [assumption | repeat constructor; intros [] |].
    intros a Ha [<- | []]. revert Ha. apply Fresh. lia.
  - apply Forall_app. split; [apply Le; lia | repeat constructor; lia].
  - now rewrite app_nil_r.
  - apply NoDup_app; [assumption | repeat constructor; intros [] |].
    intros a Ha [<- | []]. revert Ha. apply Fresh. lia.
  - apply Forall_app. split; [apply Le; lia | repeat constructor; lia].
  - apply StronglySorted_snoc; [assumption | apply Lt; lia].
  - apply NoDup_app; [assumption | |].
    + repeat constructor; simpl; [intros [E | []]; lia | intros []].
    + intros a Ha [<- | [<- | []]]; revert Ha; apply Fresh; lia.
  - apply Forall_app. split; [apply Le; lia | repeat constructor; lia].
Qed.

Lemma ids_invariant_call_tools (calls : list Call) (st : State) :
  ids_invariant st -> ids_invariant (call_tools calls st).
Proof.
  revert st; induction calls as [|[n a] calls IH]; intros st I; [exact I|].
  simpl. apply IH. now apply ids_invariant_call_tool.
Qed.

Lemma ids_invariant_fresh (host : str) (port : Z) (dbg : bool) :
  ids_invariant (fresh host port dbg).
Proof. repeat split; constructor. Qed.

(** The counter counts the calls made and the initialization requests sent. *)
Lemma request_id_call_tools (calls : list Call) (st : State) :
  request_id (self (call_tools calls st)) + Z.of_nat (initialize_count (wire st))
  = request_id (self st) + Z.of_nat (List.length calls)
    + Z.of_nat (initialize_count (wire (call_tools calls st))).
Proof.
  revert st; induction calls as [|[n a] calls IH]; intros st.
  - simpl. lia.
  - cbn [call_tools List.length]. specialize (IH (snd (call_tool n a st))).
    destruct (call_tool_wire n a st) as [W [R _]]. cbv zeta in W, R.
    rewrite W, initialize_count_app in IH. rewrite R in IH. lia.
Qed.

Lemma initialize_count_grows (calls : list Call) (st : State) :
  (initialize_count (wire st) <= initialize_count (wire (call_tools calls st)))%nat.
Proof.
  revert st; induction calls as [|[n a] calls IH]; intros st; [cbn; lia|].
  cbn [call_tools]. specialize (IH (snd (call_tool n a st))).
  destruct (call_tool_wire n a st) as [W _]. cbv zeta in W.
  rewrite W, initialize_count_app in IH. lia.
Qed.

(** The first call of a new client always sends an initialization request. *)
Lemma initialized_after_first_call
    (h : str) (p : Z) (dbg : bool) (calls : list Call) :
  calls <> [] ->
  (1 <= initialize_count (wire (call_tools calls (fresh h p dbg))))%nat.
Proof.
  destruct calls as [|[n a] calls]; [congruence|]. intros _.
  cbn [call_tools].
  pose proof (initialize_count_grows calls (snd (call_tool n a (fresh h p dbg)))) as G.
  destruct (call_tool_wire n a (fresh h p dbg)) as [W [_ [C _]]].
  cbv zeta in W, C.
  assert (L : initialize_count (wire (snd (call_tool n a (fresh h p dbg)))) = 1%nat).
  { rewrite W, initialize_count_app, C. reflexivity. }
  rewrite L in G. exact G.
Qed.

End Ids.

(** ** Claims about request ids and the session token *)

Section Claims.
Context `{RT : Runtime}.

(** C2 (amended): tool-call envelopes carry strictly increasing ids and no
    id is ever sent twice.  A call sends one envelope, or none, and then it
    raises a transport error; the envelope of the
    N-th call carries N plus the number of initialization requests sent
    during the earlier calls, because [initialize_session] draws its id
    from the same counter: 1 for the first call after construction, and
    more than N from the second call on, the first call having always sent
    an initialization request. *)
Theorem tool_call_ids_increase
    (host : str) (port : Z) (dbg : bool)
    (calls : list Call) (tool_name : str) (arguments : option dict) :
  let st := call_tools calls (fresh host port dbg) in
  let st' := snd (call_tool tool_name arguments st) in
  StronglySorted Z.lt (tool_call_ids (wire st')) /\
  NoDup (request_ids (wire st')) /\
  (tool_call_ids (sent_between st st')
   = [Z.of_nat (List.length calls) + 1 + Z.of_nat (initialize_count (wire st))]
   \/
   tool_call_ids (sent_between st st') = [] /\
   exists e, fst (call_tool tool_name arguments st) = Raise e /\
             isinstance e HTTPError_ = true) /\
  Forall (fun i => i = 1)
         (tool_call_ids
            (wire (snd (call_tool tool_name arguments (fresh host port dbg))))) /\
  (calls <> [] ->
   (1 <= initialize_count (wire st))%nat /\
   Forall (fun i => Z.of_nat (List.length calls) + 1 < i)
          (tool_call_ids (sent_between st st'))).
Proof.
  cbv zeta.
  set (st := call_tools calls (fresh host port dbg)).
  assert (I : ids_invariant (snd (call_tool tool_name arguments st))).
  { apply ids_invariant_call_tool, ids_invariant_call_tools, ids_invariant_fresh. }
  destruct I as [S [N _]].
  pose proof (request_id_call_tools calls (fresh host port dbg)) as R.
  fold st in R. cbn in R.
  destruct (call_tool_wire tool_name arguments st) as [_ [_ [_ T]]].
  cbv zeta in T.
  split; [exact S|]. split; [exact N|]. split; [|split].
  - destruct T as [T | T]; [left | now right].
    rewrite T. f_equal. lia.
  - destruct (call_tool_wire tool_name arguments (fresh host port dbg))
      as [W [_ [_ T']]].
    cbv zeta in W, T'. rewrite W. cbn [fresh wire app].
    destruct T' as [-> | [-> _]]; repeat constructor.
  - intros NE.
    pose proof (initialized_after_first_call host port dbg NE) as G.
    fold st in G. split; [exact G|].
    destruct T as [-> | [-> _]]; repeat constructor. lia.
Qed.

(** C9: every [call_tool] advances the counter before anything is sent and
    never takes the step back, whatever the call ends in: the envelope it
    sends carries the advanced value (it is sent unless the initialization
    exchange of the call raised a transport error), the counter afterwards
    is larger than before, and the next call sends a strictly larger id. *)
Theorem request_id_consumed_whatever_the_outcome
    (tool_name : str) (arguments : option dict)
    (next_name : str) (next_arguments : option dict) (st : State) :
  let st1 := snd (call_tool tool_name arguments st) in
  let st2 := snd (call_tool next_name next_arguments st1) in
  request_id (self st1)
    = request_id (self st) + 1 + Z.of_nat (initialize_count (sent_between st st1)) /\
  (forall e, fst (call_tool tool_name arguments st) = Raise e ->
             request_id (self st) < request_id (self st1)) /\
  (tool_call_ids (sent_between st st1) = [request_id (self st) + 1] \/
   tool_call_ids (sent_between st st1) = [] /\
   exists e, fst (call_tool tool_name arguments st) = Raise e /\
             isinstance e HTTPError_ = true) /\
  Forall (fun i => request_id (self st) + 1 < i)
         (tool_call_ids (sent_between st1 st2)).
Proof.
  cbv zeta.
  destruct (call_tool_wire tool_name arguments st) as [_ [R [_ T]]].
  cbv zeta in R, T.
  destruct (call_tool_wire next_name next_arguments
              (snd (call_tool tool_name arguments st))) as [_ [R' [_ T']]].
  cbv zeta in R', T'.
  split; [exact R|]. split; [intros e _; lia|]. split; [exact T|].
  destruct T' as [-> | [-> _]]; repeat constructor. lia.
Qed.

(** C7: once a non-empty session token is held, no sequence of tool calls
    changes it, and none of them runs the initialization exchange. *)
Theorem session_token_never_overwritten
    (calls : list Call) (st : State) (sid : str) :
  sid <> [] ->
  session_id (self st) = Some sid ->
  session_id (self (call_tools calls st)) = Some sid /\
  initialize_count (wire (call_tools calls st)) = initialize_count (wire st).
Proof.
  intros NE. revert st; induction calls as [|[n a] calls IH]; intros st S.
  - now split.
  - cbn [call_tools].
    assert (T : truthy (session_id (self st)) = true).
    { rewrite S. destruct sid; [congruence | reflexivity]. }
    destruct (call_tool_shape n a st) as [_ Hs]. cbv zeta in Hs.
    destruct Hs as [[_ [S' [_ [hd W]]]] | [[T' _] | [T' _]]]; try congruence.
    destruct (IH (snd (call_tool n a st))) as [IH1 IH2]; [congruence|].
    split; [exact IH1|]. rewrite IH2, W, initialize_count_app. cbn. lia.
Qed.

(** C4 (amended): a call runs the initialization exchange exactly when it
    starts without a non-empty session token, once per such call.  Against
    an endpoint that never sends a session header the token stays unset,
    every call initializes again, and every call still returns the envelope
    of a 2xx reply that carries no error. *)
Theorem initialization_runs_while_no_token_is_held :
  (forall tool_name arguments st,
     initialize_count (sent_between st (snd (call_tool tool_name arguments st)))
     = if truthy (session_id (self st)) then 0%nat else 1%nat) /\
  (never_issues_session ->
   forall host port dbg calls,
     let st := call_tools calls (fresh host port dbg) in
     session_id (self st) = None /\
     initialize_count (wire st) = List.length calls) /\
  (never_issues_session -> always_answers ->
   forall host port dbg calls tool_name arguments,
     exists d,
       fst (call_tool tool_name arguments (call_tools calls (fresh host port dbg)))
       = Ok (JDict d)).
Proof.
  assert (Step : never_issues_session ->
    forall n a st, session_id (self st) = None ->
      session_id (self (snd (call_tool n a st))) = None).
  { intros NS n a st S. rewrite call_tool_eq. cbv zeta. rewrite S. cbn [truthy].
    rewrite initialize_session_eq. unfold init_exchange.
    destruct (server _) as [| |r] eqn:E; cbn; try assumption.
    apply NS in E. destruct (is_success r); cbn; assumption. }
  assert (Run : never_issues_session ->
    forall calls st, session_id (self st) = None ->
      session_id (self (call_tools calls st)) = None /\
      initialize_count (wire (call_tools calls st))
      = (initialize_count (wire st) + List.length calls)%nat).
  { intros NS calls. induction calls as [|[n a] calls IH]; intros st S.
    - split; [assumption | cbn; lia].
    - cbn [call_tools List.length].
      destruct (IH (snd (call_tool n a st))) as [IH1 IH2]; [now apply Step|].
      split; [exact IH1|]. rewrite IH2.
      destruct (call_tool_wire n a st) as [W [_ [C _]]]. cbv zeta in W, C.
      rewrite W, initialize_count_app, C, S. cbn. lia. }
  split; [|split].
  - intros n a st. now destruct (call_tool_wire n a st) as [_ [_ [C _]]].
  - intros NS host port dbg calls. cbv zeta.
    destruct (Run NS calls (fresh host port dbg)) as [S C]; [reflexivity|].
    split; [exact S | exact C].
  - intros NS AA host port dbg calls n a.
    rewrite call_tool_outcome.
    destruct (AA (wire (snd (call_tool n a (call_tools calls (fresh host port dbg))))))
      as [r [d [E [S [P D]]]]].
    exists d. rewrite E. cbn [conclude]. rewrite S, P.
    unfold check_jsonrpc_error, py_in, dict_has. now rewrite D.
Qed.

End Claims.

(** C8: [close] is safe in every state and idempotent: without a connection
    handle it does nothing at all, it never raises, it leaves no handle
    behind, and closing twice is the same as closing once. *)
Theorem close_idempotent (st : State) :
  (http_client (self st) = None -> close st = (Ok tt, st)) /\
  fst (close st) = Ok tt /\
  http_client (self (snd (close st))) = None /\
  (close ;; close) st = close st.
Proof.
  destruct st as [[u n d s [h|]] w]; repeat split; try reflexivity; discriminate.
Qed.

(** ** Claims about replies *)

Section Replies.
Context `{RT : Runtime}.


(** An [error] member that is not a mapping has no [get]: the check ends in
    [AttributeError], whatever else the envelope holds. *)
Lemma check_jsonrpc_error_not_a_mapping (d : dict) (v : Json) :
  dict_get d (py "error") = Some v ->
  (forall err, v <> JDict err) ->
  check_jsonrpc_error (JDict d) = Raise AttributeError.
Proof.
  intros E NM. unfold check_jsonrpc_error, py_in, py_getitem, dict_has.
  rewrite E. destruct v; try reflexivity. now destruct (NM members).
Qed.



(** C10: the body of a 2xx reply goes through the SSE parser exactly when
    the value of the content-type header contains [text/event-stream]
    somewhere; without a content-type header it is decoded as plain JSON. *)
Theorem response_format_is_a_substring_test (r : Response) :
  let content_type := headers_get_default (headers r) (py "content-type") [] in
  let occurs := exists pre post, content_type = pre ++ py "text/event-stream" ++ post in
  let finish (decoded : Res Json) :=
    match decoded with
    | Ok result => check_jsonrpc_error result
    | Raise e => Raise e
    end in
  forall tool_name arguments st,
    server (wire (snd (call_tool tool_name arguments st))) = Replied r ->
    is_success r = true ->
    (occurs ->
     fst (call_tool tool_name arguments st) = finish (_parse_sse_response (text r))) /\
    (~ occurs ->
     fst (call_tool tool_name arguments st) = finish (response_json r)) /\
    (headers_get (headers r) (py "content-type") = None ->
     fst (call_tool tool_name arguments st) = finish (response_json r)).
Proof.
  cbv zeta. intros n a st E S.
  rewrite call_tool_outcome, E. cbn [conclude]. rewrite S.
  unfold parse_body, is_event_stream.
  repeat split.
  - intros O. apply str_in_spec in O. now rewrite O.
  - intros NO.
    destruct (str_in _ _) eqn:I; [|reflexivity].
    apply str_in_spec in I. contradiction.
  - intros A. unfold headers_get_default. now rewrite A.
Qed.

(** C5 (amended): the parser strips the whole text before it splits it
    into lines, and then hands the concatenated [data: ] suffixes to the
    JSON decoder.  For a body that does not begin with whitespace and whose
    payload does not end in whitespace these are the suffixes of the body's
    own lines; so a multi-line frame whose chunks concatenate to a compact
    document parses like the single-line frame carrying that document. *)
Theorem sse_parser_concatenates_data_suffixes :
  (forall sse_text,
     _parse_sse_response sse_text = json_loads_res (sse_payload (strip sse_text))) /\
  (forall body,
     lstrip body = body ->
     ends_with_space (sse_payload body) = false ->
     _parse_sse_response body = json_loads_res (sse_payload body)) /\
  (forall chunks doc,
     Forall (fun chunk => ~ In LF chunk) chunks ->
     List.concat chunks = doc ->
     ends_with_space doc = false ->
     _parse_sse_response (sse_frame chunks) = json_loads_res doc /\
     _parse_sse_response (sse_frame [doc]) = json_loads_res doc).
Proof.
  unfold _parse_sse_response.
  assert (Frame : forall chunks,
    Forall (fun chunk => ~ In LF chunk) chunks ->
    ends_with_space (List.concat chunks) = false ->
    sse_json_data (sse_frame chunks) = List.concat chunks).
  { intros chunks F E. rewrite sse_json_data_unstripped.
    - now apply sse_payload_frame.
    - apply lstrip_frame.
    - now rewrite sse_payload_frame. }
  split; [|split].
  - intros sse_text. now rewrite sse_json_data_strip.
  - intros body L E. now rewrite sse_json_data_unstripped.
  - intros chunks doc F C E. subst doc. split.
    + now rewrite Frame.
    + rewrite Frame.
      * simpl. now rewrite app_nil_r.
      * constructor; [|constructor]. intros I. apply in_concat in I as [ch [Hch I]].
        rewrite Forall_forall in F. now apply (F ch).
      * simpl. now rewrite app_nil_r.
Qed.

End Replies.

(** ** Initialization that fails *)

Section Initialization.
Context `{RT : Runtime}.

(** A reply outside 2xx makes [initialize_session] raise the transport
    error for its status, after the session header of that reply, present
    or not, has been stored. *)
Lemma initialize_session_bad_status (st : State) (r : Response) :
  server (wire (snd (initialize_session st))) = Replied r ->
  is_success r = false ->
  fst (initialize_session st) = Raise (HTTPStatusError (status_code r)) /\
  session_id (self (snd (initialize_session st)))
  = headers_get (headers r) (py "mcp-session-id").
Proof.
  rewrite initialize_session_eq. unfold init_exchange.
  set (c := opened (self (advance st))).
  set (w := wire (advance st) ++ [Post (base_url c) (init_payload (request_id c))
                                   request_headers]).
  destruct (server w) as [| |r'] eqn:E; cbn [fst snd wire self];
    intros E' S; rewrite E in E'; try discriminate.
  injection E' as ->. rewrite S. now split.
Qed.

End Initialization.

(** * Worked examples *)

(** The reference decoder on the documents used below. *)
Example loads_error_body :
  Decoder.loads error_body = Some (JDict error_envelope).
Proof. reflexivity. Qed.

Example loads_rejects :
  List.map Decoder.loads
    [py ""; py "<html>"; py "01"; py "[1,]"; py "1 2"; qq "{'a':1,}"; qq "'open"]
  = [None; None; None; None; None; None; None].
Proof. reflexivity. Qed.

Example loads_accepts :
  Decoder.loads (qq " {'a': [1, -2.5e3, true, null], 'b': 'x\u0041', 'a': {}} ")
  = Some (JDict [(py "a", JDict []); (py "b", JStr (py "xA"))]).
Proof. reflexivity. Qed.

(** A JSON reply is returned as decoded; the first call has initialized the
    session on the way and holds the token afterwards. *)
Example json_reply_is_returned :
  let run := call_tool (RT := reference session_server)
               (py "get_tactics") (snd get_tactics) demo in
  fst run = Ok (JDict [(py "jsonrpc", JStr (py "2.0")); (py "id", JInt 1);
                       (py "result",
                        JDict [(py "tactics",
                                JList [JDict [(py "name", JStr (py "Persistence"))]])])])
  /\ session_id (self (snd run)) = Some (py "s1")
  /\ request_ids (wire (snd run)) = [2; 1].
Proof. repeat split. Qed.

(** The same envelope framed as an event stream decodes to the same value. *)
Example event_stream_reply_is_returned :
  fst (call_tool (RT := reference stream_server) (py "get_tactics") None demo)
  = Ok (JDict [(py "jsonrpc", JStr (py "2.0")); (py "id", JInt 1);
               (py "result", JDict [(py "tactics", JList [])])]).
Proof. reflexivity. Qed.

(** An unreachable endpoint: the first call raises the transport error
    from the initialization exchange, before anything is decoded, and no
    token is held afterwards. *)
Example unreachable_endpoint :
  let run := call_tool (RT := reference unreachable_server)
               (py "get_tactics") None demo in
  fst run = Raise ConnectError
  /\ session_id (self (snd run)) = None
  /\ request_ids (wire (snd run)) = [2]
  /\ tool_call_ids (wire (snd run)) = [].
Proof. repeat split. Qed.

(** C3: on a new client, a 500 reply that carries a session header makes
    [initialize_session] raise the transport error and leaves the token of
    the rejected exchange in [session_id]. *)
Theorem failed_initialization_stores_the_token :
  fst (initialize_session (RT := reference failing_server) demo)
  = Raise (HTTPStatusError 500) /\
  session_id (self demo) = None /\
  session_id (self (snd (initialize_session (RT := reference failing_server) demo)))
  = Some (py "abc").
Proof. repeat split. Qed.

(** C2 fails as stated: with an endpoint that issues a token at once, the
    second call sends id 3, the initialization request of the first call
    having taken id 2. *)
Lemma second_call_sends_id_three :
  let w := wire (call_tools (RT := reference session_server)
                   [get_tactics; get_tactics] demo) in
  request_ids w = [2; 1; 3] /\
  tool_call_ids w = [1; 3] /\
  nth_error (tool_call_ids w) 1 <> Some 2.
Proof. vm_compute. repeat split. discriminate. Qed.

(** C4 fails as stated: against an endpoint without session header two
    calls on one client run the initialization exchange twice. *)
Lemma sessionless_endpoint_initialized_twice :
  let st := call_tools (RT := reference sessionless_server)
              [get_tactics; get_tactics] demo in
  session_id (self st) = None /\
  initialize_count (wire st) = 2%nat /\
  initialize_count (wire st) <> 1%nat.
Proof. vm_compute. repeat split. discriminate. Qed.

(** C5 fails as stated: in this body only the second line is prefixed
    [data: ] and its suffix is the document [2], yet the parser, which
    strips the text first, reads both lines and returns [12]. *)
Lemma indented_first_line_is_read_as_data :
  let body := py " data: 1" ++ [LF] ++ py "data: 2" in
  sse_well_formed (RT := reference unreachable_server) body /\
  json_loads_res (RT := reference unreachable_server) (sse_payload body)
  = Ok (JInt 2) /\
  _parse_sse_response (RT := reference unreachable_server) body = Ok (JInt 12).
Proof.
  cbv zeta. split; [split|split].
  - vm_compute. discriminate.
  - exists (JInt 2). reflexivity.
  - reflexivity.
  - reflexivity.
Qed.



Lemma tool_call_ids_increase_witness :
  [get_tactics] <> [] /\
  (1 <= initialize_count
          (wire (call_tools (RT := reference session_server) [get_tactics] demo)))%nat /\
  Forall (fun i => Z.of_nat (List.length [get_tactics]) + 1 < i)
    (tool_call_ids
       (sent_between
          (call_tools (RT := reference session_server) [get_tactics] demo)
          (snd (call_tool (RT := reference session_server) (py "get_tactics") None
                  (call_tools (RT := reference session_server) [get_tactics] demo))))).
Proof.
  assert (NE : [get_tactics] <> []) by discriminate.
  split; [exact NE|].
  exact (proj2 (proj2 (proj2 (proj2
           (@tool_call_ids_increase (reference session_server)
              (py "localhost") 8000 false [get_tactics] (py "get_tactics") None))))
           NE).
Defined.


Lemma request_id_consumed_whatever_the_outcome_witness :
  fst (call_tool (RT := reference failing_server) (py "get_tactics") None demo)
  = Raise (HTTPStatusError 500) /\
  request_id (self demo)
  < request_id (self (snd (call_tool (RT := reference failing_server)
                             (py "get_tactics") None demo))).
Proof.
  split; [reflexivity|].
  apply (proj1 (proj2 (request_id_consumed_whatever_the_outcome
                         (RT := reference failing_server)
                         (py "get_tactics") None (py "get_tactics") None demo))
           (HTTPStatusError 500)).
  reflexivity.
Defined.

Lemma session_token_never_overwritten_witness :
  py "s1" <> [] /\
  session_id (self in_session) = Some (py "s1") /\
  session_id (self (call_tools (RT := reference session_server)
                      [get_tactics; get_tactics; get_tactics] in_session))
  = Some (py "s1") /\
  initialize_count (wire (call_tools (RT := reference session_server)
                            [get_tactics; get_tactics; get_tactics] in_session))
  = initialize_count (wire in_session).
Proof.
  split; [discriminate|]. split; [reflexivity|].
  apply (session_token_never_overwritten (RT := reference session_server));
    [discriminate | reflexivity].
Defined.

Lemma sessionless_server_never_issues_session :
  never_issues_session (RT := reference sessionless_server).
Proof. intros w r E. injection E as <-. reflexivity. Defined.

Lemma sessionless_server_always_answers :
  always_answers (RT := reference sessionless_server).
Proof.
  intros w. eexists. eexists. split; [reflexivity|].
  split; [reflexivity|]. split; [vm_compute; reflexivity | reflexivity].
Defined.

Lemma initialization_runs_while_no_token_is_held_witness :
  never_issues_session (RT := reference sessionless_server) /\
  always_answers (RT := reference sessionless_server) /\
  (let st := call_tools (RT := reference sessionless_server)
               [get_tactics; get_tactics; get_tactics] demo in
   session_id (self st) = None /\ initialize_count (wire st) = 3%nat) /\
  exists d,
    fst (call_tool (RT := reference sessionless_server) (py "get_tactics") None
           (call_tools (RT := reference sessionless_server)
              [get_tactics; get_tactics; get_tactics] demo))
    = Ok (JDict d).
Proof.
  pose proof (initialization_runs_while_no_token_is_held
                (RT := reference sessionless_server)) as [_ [Unset Succeeds]].
  split; [exact sessionless_server_never_issues_session|].
  split; [exact sessionless_server_always_answers|].
  split.
  - exact (Unset sessionless_server_never_issues_session
             (py "localhost") 8000 false [get_tactics; get_tactics; get_tactics]).
  - exact (Succeeds sessionless_server_never_issues_session
             sessionless_server_always_answers
             (py "localhost") 8000 false [get_tactics; get_tactics; get_tactics]
             (py "get_tactics") None).
Defined.

Lemma close_idempotent_witness :
  http_client (self demo) = None /\ close demo = (Ok tt, demo).
Proof.
  split; [reflexivity|]. apply (proj1 (close_idempotent demo)). reflexivity.
Defined.


Lemma response_format_is_a_substring_test_witness :
  let r := mkResponse 200
             [(py "Content-Type", py "text/event-stream; charset=utf-8")]
             (py "event: message" ++ [LF]
              ++ qq "data: {'jsonrpc':'2.0','id':1,'result':{'tactics':[]}}"
              ++ [LF]) in
  stream_server [] = Replied r /\
  is_success r = true /\
  headers_get_default (headers r) (py "content-type") []
  = [] ++ py "text/event-stream" ++ py "; charset=utf-8" /\
  fst (call_tool (RT := reference stream_server) (py "get_tactics") None demo)
  = match _parse_sse_response (RT := reference stream_server) (text r) with
    | Ok result => check_jsonrpc_error result
    | Raise e => Raise e
    end.
Proof.
  cbv zeta. repeat (split; [reflexivity|]).
  refine (proj1 (@response_format_is_a_substring_test
                   (reference stream_server) _
                   (py "get_tactics") None demo eq_refl eq_refl) _).
  exists [], (py "; charset=utf-8"). reflexivity.
Defined.

Lemma sse_parser_concatenates_data_suffixes_witness :
  let chunks := [qq "{'jsonrpc':'2.0',"; qq "'id':1,"; qq "'result':{}}"] in
  let doc := qq "{'jsonrpc':'2.0','id':1,'result':{}}" in
  Forall (fun chunk => ~ In LF chunk) chunks /\
  List.concat chunks = doc /\
  ends_with_space doc = false /\
  _parse_sse_response (RT := reference unreachable_server) (sse_frame chunks)
  = json_loads_res (RT := reference unreachable_server) doc /\
  _parse_sse_response (RT := reference unreachable_server) (sse_frame [doc])
  = json_loads_res (RT := reference unreachable_server) doc.
Proof.
  cbv zeta.
  assert (F : Forall (fun chunk => ~ In LF chunk)
                [qq "{'jsonrpc':'2.0',"; qq "'id':1,"; qq "'result':{}}"]).
  { repeat constructor; intros I; vm_compute in I;
      repeat (destruct I as [I | I]; [discriminate I|]); exact I. }
  split; [exact F|]. split; [reflexivity|]. split; [reflexivity|].
  apply (proj2 (proj2 (sse_parser_concatenates_data_suffixes
                         (RT := reference unreachable_server))));
    [exact F | reflexivity | reflexivity].
Defined.

(** * Further properties of the client *)

(** ** Urls *)

Lemma split_sep_app (sep : char) (a b : str) :
  split sep (a ++ sep :: b) = split sep a ++ split sep b.
Proof.
  induction a as [|c a IH]; simpl.
  - now rewrite N.eqb_refl.
  - rewrite IH. destruct (N.eqb c sep); [reflexivity|].
    pose proof (split_nonempty sep a) as NE.
    destruct (split sep a) as [|l ls]; [congruence | reflexivity].
Qed.

Lemma split_no_sep (sep : char) (l : str) :
  ~ In sep l -> split sep l = [l].
Proof.
  induction l as [|c l IH]; intros NI; [reflexivity|].
  simpl. destruct (N.eqb c sep) eqn:Ec.
  - apply N.eqb_eq in Ec. exfalso. apply NI. now left.
  - rewrite IH; [reflexivity|]. intros HI. apply NI. now right.
Qed.

Lemma digits_of_uint_digits (d : Decimal.uint) :
  Forall (fun c => (48 <= c <= 57)%N) (digits_of_uint d).
Proof. induction d; simpl; constructor; auto; lia. Qed.

(** [str(n)] consists of digits and at most a leading minus sign. *)
Lemma str_of_int_chars (z : Z) :
  Forall (fun c => c = 45%N \/ (48 <= c <= 57)%N) (str_of_int z).
Proof.
  unfold str_of_int. destruct (Z.to_int z) as [d|d].
  - generalize (digits_of_uint_digits d). apply Forall_impl. now right.
  - constructor; [now left|].
    generalize (digits_of_uint_digits d). apply Forall_impl. now right.
Qed.

Lemma str_of_int_no_slash (z : Z) : ~ In SLASH (str_of_int z).
Proof.
  intros I. pose proof (str_of_int_chars z) as F. rewrite Forall_forall in F.
  apply F in I. unfold SLASH in I. lia.
Qed.

Lemma str_of_int_no_colon (z : Z) : ~ In COLON (str_of_int z).
Proof.
  intros I. pose proof (str_of_int_chars z) as F. rewrite Forall_forall in F.
  apply F in I. unfold COLON in I. lia.
Qed.

Lemma base_url_init (h : str) (p : Z) (dbg : bool) :
  base_url (__init__ h p dbg)
  = py "http:" ++ SLASH :: [] ++ SLASH :: (h ++ COLON :: str_of_int p)
      ++ SLASH :: py "mcp".
Proof.
  unfold __init__. cbn [base_url].
  change (py "http://") with (py "http:" ++ [SLASH; SLASH]).
  change (py ":") with [COLON]. change (py "/mcp") with (SLASH :: py "mcp").
  now rewrite <- !app_assoc.
Qed.

(** X1: the port named in the hint of the HTTP error handler is the port
    the client was constructed with, whatever the host looks like. *)
Theorem port_hint_is_the_configured_port (h : str) (p : Z) (dbg : bool) :
  port_hint (base_url (__init__ h p dbg)) = str_of_int p.
Proof.
  unfold port_hint, __init__. cbn [base_url].
  change (py ":") with [COLON]. change (py "/mcp") with (SLASH :: py "mcp").
  rewrite app_assoc. cbn [app].
  rewrite split_sep_app.
  rewrite (@split_no_sep COLON (str_of_int p ++ SLASH :: py "mcp")).
  - rewrite last_last, split_sep_app.
    rewrite (@split_no_sep SLASH _ (str_of_int_no_slash p)). reflexivity.
  - intros I. apply in_app_or in I as [I | I].
    + now apply str_of_int_no_colon in I.
    + vm_compute in I. repeat (destruct I as [I | I]; [discriminate I|]). exact I.
Qed.

(** ** The connectivity probe *)

Section Probing.
Context `{PB : Probe}.

(** X3: for a client constructed from a host without [/] the probe goes
    to [http://host:port], the base url without its path. *)
Theorem test_connection_probes_host_and_port
    (h : str) (p : Z) (dbg : bool) (w : list Event) :
  ~ In SLASH h ->
  test_connection (mkState (__init__ h p dbg) w)
  = (Ok (match http_get (py "http://" ++ h ++ py ":" ++ str_of_int p) with
         | Replied r => status_code r <? 500
         | _ => false
         end),
     mkState (__init__ h p dbg) w).
Proof.
  intros NS. unfold test_connection, bind, get_self, ret. cbn [self].
  rewrite base_url_init, !split_sep_app.
  assert (NA : ~ In SLASH (h ++ COLON :: str_of_int p)).
  { intros I. apply in_app_or in I as [I | [I | I]].
    - contradiction.
    - discriminate I.
    - now apply str_of_int_no_slash in I. }
  rewrite (@split_no_sep SLASH _ NA).
  change (py ":") with [COLON]. cbn.
  destruct (http_get _); reflexivity.
Qed.

End Probing.

(** ** What a call sends and leaves behind *)

Lemma posts_app (w1 w2 : list Event) : posts (w1 ++ w2) = posts w1 ++ posts w2.
Proof. unfold posts. now rewrite flat_map_app. Qed.

Lemma session_header_opened (c : Client) :
  session_header (opened c) = session_header c.
Proof. now destruct c. Qed.

Section Requests.
Context `{RT : Runtime}.

(** The requests of one call with their headers, the handle and the token
    it leaves. *)
Lemma call_tool_posts (tool_name : str) (arguments : option dict) (st : State) :
  let st' := snd (call_tool tool_name arguments st) in
  let rid := request_id (self st) in
  let url := base_url (self st) in
  let tool := (url, tool_payload (rid + 1) tool_name arguments,
               request_headers ++ session_header (self st')) in
  let init := (url, init_payload (rid + 2), request_headers) in
  http_client (self st') = http_client (opened (self st)) /\
  (truthy (session_id (self st)) = true /\
   posts (sent_between st st') = [tool] /\
   session_id (self st') = session_id (self st)
   \/
   truthy (session_id (self st)) = false /\
   (posts (sent_between st st') = [init] \/
    posts (sent_between st st') = [init; tool]) /\
   session_id (self st')
   = match server (wire st ++ [Post url (init_payload (rid + 2)) request_headers]) with
     | Replied r => headers_get (headers r) (py "mcp-session-id")
     | _ => session_id (self st)
     end).
Proof.
  cbv zeta. rewrite call_tool_eq. cbv zeta.
  destruct st as [[u n d s h] w].
  cbn [self wire request_id base_url session_id].
  destruct (truthy s) eqn:T.
  - split; [reflexivity|]. left. split; [reflexivity|].
    unfold sent_between. cbn [tool_exchange advance self wire snd opened
      set_request_id set_http_client base_url request_id session_id http_client].
    rewrite skipn_app, skipn_all, Nat.sub_diag. now repeat split.
  - rewrite initialize_session_eq. unfold init_exchange, advance.
    cbn [self wire request_id base_url session_id opened set_request_id
         set_http_client http_client].
    replace (n + 1 + 1) with (n + 2) by lia.
    destruct (server _) as [| |r]; unfold sent_between;
      cbn [snd self wire http_client session_id];
      try (split; [reflexivity|]; right; split; [reflexivity|];
           rewrite skipn_app, skipn_all, Nat.sub_diag; split; [now left | reflexivity]).
    destruct (is_success r);
      cbn [tool_exchange snd self wire http_client session_id opened
           set_session_id set_http_client base_url request_id].
    + split; [reflexivity|]. right. split; [reflexivity|].
      rewrite <- app_assoc, skipn_app, skipn_all, Nat.sub_diag.
      split; [now right | reflexivity].
    + split; [reflexivity|]. right. split; [reflexivity|].
      rewrite skipn_app, skipn_all, Nat.sub_diag. split; [now left | reflexivity].
Qed.

(** X4: every request goes to the base url with the two fixed headers; the
    tool-call request carries the session header exactly when a non-empty
    token is held at that moment, with the token as its value, and the
    initialization request never carries one. *)
Theorem requests_carry_the_held_token
    (tool_name : str) (arguments : option dict) (st : State) :
  let st' := snd (call_tool tool_name arguments st) in
  Forall (fun post =>
            let '(url, env, hdrs) := post in
            url = base_url (self st) /\
            (is_initialize env = true -> hdrs = request_headers) /\
            (is_tool_call env = true ->
             hdrs = request_headers ++
                    match session_id (self st') with
                    | Some (c :: sid) => [(py "mcp-session-id", c :: sid)]
                    | _ => []
                    end))
         (posts (sent_between st st')).
Proof.
  cbv zeta.
  assert (SH : forall c, session_header c
                         = match session_id c with
                           | Some (x :: sid) => [(py "mcp-session-id", x :: sid)]
                           | _ => []
                           end).
  { intros [u n d [[|x sid]|] h]; reflexivity. }
  destruct (call_tool_posts tool_name arguments st) as [_ P]. cbv zeta in P.
  assert (Tool : forall rid,
            base_url (self st) = base_url (self st) /\
            (is_initialize (tool_payload rid tool_name arguments) = true ->
             request_headers
             ++ session_header (self (snd (call_tool tool_name arguments st)))
             = request_headers) /\
            (is_tool_call (tool_payload rid tool_name arguments) = true ->
             request_headers
             ++ session_header (self (snd (call_tool tool_name arguments st)))
             = request_headers ++
               match session_id (self (snd (call_tool tool_name arguments st))) with
               | Some (c :: sid) => [(py "mcp-session-id", c :: sid)]
               | _ => []
               end)).
  { intros rid. split; [reflexivity|]. split; [discriminate|].
    intros _. now rewrite SH. }
  assert (Init : forall rid,
            base_url (self st) = base_url (self st) /\
            (is_initialize (init_payload rid) = true ->
             request_headers = request_headers) /\
            (is_tool_call (init_payload rid) = true ->
             request_headers
             = request_headers ++
               match session_id (self (snd (call_tool tool_name arguments st))) with
               | Some (c :: sid) => [(py "mcp-session-id", c :: sid)]
               | _ => []
               end)).
  { intros rid. split; [reflexivity|]. split; [reflexivity | discriminate]. }
  destruct (call_tool_posts tool_name arguments st) as [_ Sent].
  cbv zeta in Sent.
  destruct Sent as [[_ [Sent _]] | [_ [[Sent | Sent] _]]]; rewrite Sent.
  - constructor; [apply Tool | constructor].
  - constructor; [apply Init | constructor].
  - constructor; [apply Init | constructor; [apply Tool | constructor]].
Qed.

Lemma call_tool_leaves_handle_aux
    (tool_name : str) (arguments : option dict) (st : State) :
  exists handle,
    http_client (self (snd (call_tool tool_name arguments st))) = Some handle.
Proof.
  destruct (call_tool_posts tool_name arguments st) as [E _]. cbv zeta in E.
  rewrite E. eexists. reflexivity.
Qed.

(** X5: a call leaves a connection handle behind whatever its outcome: the
    one the client held before, or a new one with the 30 second timeout. *)
Theorem call_tool_leaves_a_handle
    (tool_name : str) (arguments : option dict) (st : State) :
  http_client (self (snd (call_tool tool_name arguments st)))
  = Some (match http_client (self st) with
          | Some handle => handle
          | None => mkAsyncClient 30
          end).
Proof.
  destruct (call_tool_posts tool_name arguments st) as [E _]. cbv zeta in E.
  rewrite E. reflexivity.
Qed.

(** X6: [close] ends the connection, not the session: the counter and the
    token survive it, and the next call opens a new handle, initializes
    only if no token was held, and goes on with the next id. *)
Theorem close_keeps_the_session
    (tool_name : str) (arguments : option dict) (st : State) :
  let st1 := snd (close st) in
  let st2 := snd (call_tool tool_name arguments st1) in
  request_id (self st1) = request_id (self st) /\
  session_id (self st1) = session_id (self st) /\
  base_url (self st1) = base_url (self st) /\
  wire st1 = wire st ++ match http_client (self st) with
                        | Some _ => [Aclose]
                        | None => []
                        end /\
  http_client (self st2) = Some (mkAsyncClient 30) /\
  initialize_count (sent_between st1 st2)
  = (if truthy (session_id (self st)) then 0 else 1)%nat /\
  request_id (self st2)
  = request_id (self st) + 1 + Z.of_nat (initialize_count (sent_between st1 st2)).
Proof.
  cbv zeta.
  assert (C : request_id (self (snd (close st))) = request_id (self st) /\
              session_id (self (snd (close st))) = session_id (self st) /\
              base_url (self (snd (close st))) = base_url (self st) /\
              wire (snd (close st))
              = wire st ++ match http_client (self st) with
                           | Some _ => [Aclose]
                           | None => []
                           end /\
              http_client (self (snd (close st))) = None).
  { destruct st as [[u n d s [h|]] w]; cbn; repeat split. now rewrite app_nil_r. }
  destruct C as [C1 [C2 [C3 [C4 C5]]]].
  destruct (call_tool_posts tool_name arguments (snd (close st))) as [E _].
  destruct (call_tool_wire tool_name arguments (snd (close st))) as [_ [R [I _]]].
  cbv zeta in E, R, I.
  repeat split; try assumption.
  - rewrite E. unfold opened. cbn [http_client set_http_client]. now rewrite C5.
  - now rewrite I, C2.
  - now rewrite R, C1.
Qed.

(** X7: a call that starts without a token puts the initialization request
    on the wire first, although it carries the later id: the ids of the
    two requests appear in decreasing order. *)
Theorem initialization_request_goes_first
    (tool_name : str) (arguments : option dict) (st : State) :
  truthy (session_id (self st)) = false ->
  let st' := snd (call_tool tool_name arguments st) in
  let rid := request_id (self st) in
  List.map is_initialize (envelopes (sent_between st st')) = [true; false] /\
  request_ids (sent_between st st') = [rid + 2; rid + 1]
  \/
  request_ids (sent_between st st') = [rid + 2] /\
  exists e, fst (call_tool tool_name arguments st) = Raise e /\
            isinstance e HTTPError_ = true.
Proof.
  intros T. cbv zeta.
  destruct (call_tool_shape tool_name arguments st) as [_ Hs]. cbv zeta in Hs.
  destruct Hs as [[T' _] | [[_ [_ [W X]]] | [_ [_ [hd W]]]]]; [congruence | |].
  - right. rewrite (sent_between_app _ _ _ W). now split.
  - left. rewrite (sent_between_app _ _ _ W). now split.
Qed.

End Requests.

(** ** What a call returns and raises *)

Lemma check_jsonrpc_error_ok (v v' : Json) :
  check_jsonrpc_error v = Ok v' -> v' = v /\ py_in (py "error") v = Ok false.
Proof.
  unfold check_jsonrpc_error.
  destruct (py_in (py "error") v) as [[|]|e] eqn:I; try discriminate.
  - destruct (py_getitem v (py "error")) as [x|e]; [|discriminate].
    destruct (py_get x (py "code")); [|discriminate].
    destruct (py_get x (py "message")); discriminate.
  - intros E. injection E as <-. now split.
Qed.

Lemma check_jsonrpc_error_raises (v : Json) (e : PyExc) :
  check_jsonrpc_error v = Raise e ->
  (exists d err,
     v = JDict d /\ dict_get d (py "error") = Some (JDict err) /\
     e = ValueError [ FLit (py "JSON-RPC Error ");
                      FVal (dict_get err (py "code"));
                      FLit (py ": ");
                      FVal (dict_get err (py "message")) ]) \/
  (e = AttributeError /\
   exists d x, v = JDict d /\ dict_get d (py "error") = Some x /\
               forall err, x <> JDict err) \/
  (e = TypeError /\ forall d, v <> JDict d).
Proof.
  unfold check_jsonrpc_error, py_in, py_getitem, dict_has.
  destruct v as [| b | z | n | s | l | d];
    try (intros E; injection E as <-; right; right; split;
         [reflexivity | discriminate]).
  - destruct (str_in (py "error") s); intros E; [|discriminate].
    injection E as <-. right; right. split; [reflexivity | discriminate].
  - destruct (existsb _ l); intros E; [|discriminate].
    injection E as <-. right; right. split; [reflexivity | discriminate].
  - destruct (dict_get d (py "error")) as [x|] eqn:D; [|discriminate].
    destruct x as [| b | z | n | s | l | err]; cbn; intros E; injection E as <-;
      try (right; left; split; [reflexivity|];
           eexists; eexists; split; [reflexivity|]; split; [exact D|];
           discriminate).
    left. exists d, err. now repeat split.
Qed.

Section Results.
Context `{RT : Runtime}.

(** X8: a call that returns has seen a 2xx reply to its last request and
    returns the decoded body itself, and that value does not contain
    [error]: a returned mapping never has an [error] member. *)
Theorem returned_envelope_has_no_error
    (tool_name : str) (arguments : option dict) (st : State) (v : Json) :
  fst (call_tool tool_name arguments st) = Ok v ->
  exists r,
    server (wire (snd (call_tool tool_name arguments st))) = Replied r /\
    is_success r = true /\
    parse_body r = Ok v /\
    py_in (py "error") v = Ok false /\
    forall d, v = JDict d -> dict_get d (py "error") = None.
Proof.
  rewrite call_tool_outcome.
  destruct (server _) as [| |r]; try discriminate. cbn [conclude].
  destruct (is_success r) eqn:S; [|discriminate].
  destruct (parse_body r) as [w|e] eqn:P; [|discriminate].
  intros C. apply check_jsonrpc_error_ok in C as [-> I].
  exists r. split; [reflexivity|]. split; [exact S|]. split; [exact P|].
  split; [exact I|].
  intros d ->. unfold py_in, dict_has in I.
  destruct (dict_get d (py "error")); [discriminate I | reflexivity].
Qed.

(** X9: once the body of a 2xx reply is decoded, the exception of a call
    tells what was decoded: the protocol [ValueError] is raised only for a
    mapping whose [error] member is a mapping, and holds its [code] and
    [message]; [AttributeError] only for a mapping whose [error] member is
    something else; [TypeError] only for a value that is no mapping.  The
    subscript [result["error"]] never raises [KeyError]. *)
Theorem decoded_body_raises_only
    (tool_name : str) (arguments : option dict) (st : State)
    (r : Response) (v : Json) (e : PyExc) :
  server (wire (snd (call_tool tool_name arguments st))) = Replied r ->
  is_success r = true ->
  parse_body r = Ok v ->
  fst (call_tool tool_name arguments st) = Raise e ->
  (exists d err,
     v = JDict d /\ dict_get d (py "error") = Some (JDict err) /\
     e = ValueError [ FLit (py "JSON-RPC Error ");
                      FVal (dict_get err (py "code"));
                      FLit (py ": ");
                      FVal (dict_get err (py "message")) ]) \/
  (e = AttributeError /\
   exists d x, v = JDict d /\ dict_get d (py "error") = Some x /\
               forall err, x <> JDict err) \/
  (e = TypeError /\ forall d, v <> JDict d).
Proof.
  intros E S P. rewrite call_tool_outcome, E. cbn [conclude]. rewrite S, P.
  apply check_jsonrpc_error_raises.
Qed.

(** X10: an [error] member that is not a mapping ([null], a string, a
    number) makes the call raise [AttributeError] instead of the protocol
    error, even when the envelope also holds a [result]. *)
Theorem error_member_that_is_no_mapping
    (tool_name : str) (arguments : option dict) (st : State)
    (r : Response) (d : dict) (x : Json) :
  server (wire (snd (call_tool tool_name arguments st))) = Replied r ->
  is_success r = true ->
  parse_body r = Ok (JDict d) ->
  dict_get d (py "error") = Some x ->
  (forall err, x <> JDict err) ->
  fst (call_tool tool_name arguments st) = Raise AttributeError.
Proof.
  intros E S P D NM. rewrite call_tool_outcome, E. cbn [conclude].
  rewrite S, P. now apply check_jsonrpc_error_not_a_mapping with (v := x).
Qed.

(** X11: a 2xx body that decodes to something other than a mapping: a
    number, a boolean or [null] raises [TypeError]; a list is returned as
    it is unless the string [error] is one of its items, a string unless it
    contains [error]; in those two cases the subscript raises [TypeError]. *)
Theorem body_that_is_no_mapping
    (tool_name : str) (arguments : option dict) (st : State)
    (r : Response) (v : Json) :
  server (wire (snd (call_tool tool_name arguments st))) = Replied r ->
  is_success r = true ->
  parse_body r = Ok v ->
  (forall d, v <> JDict d) ->
  fst (call_tool tool_name arguments st)
  = match v with
    | JList items =>
        if existsb (fun x => match x with
                             | JStr s => str_eqb s (py "error")
                             | _ => false
                             end) items
        then Raise TypeError else Ok v
    | JStr s => if str_in (py "error") s then Raise TypeError else Ok v
    | _ => Raise TypeError
    end.
Proof.
  intros E S P NM. rewrite call_tool_outcome, E. cbn [conclude]. rewrite S, P.
  unfold check_jsonrpc_error, py_in.
  destruct v as [| | | | s | l | d]; try reflexivity.
  now destruct (NM d).
Qed.

End Results.

(** ** The session over several calls *)

Section Sessions.
Context `{RT : Runtime}.

Lemma held_token_is_kept (calls : list Call) (st : State) :
  truthy (session_id (self st)) = true ->
  session_id (self (call_tools calls st)) = session_id (self st) /\
  initialize_count (wire (call_tools calls st)) = initialize_count (wire st).
Proof.
  revert st; induction calls as [|[n a] calls IH]; intros st T; [now split|].
  cbn [call_tools].
  destruct (call_tool_posts n a st) as [_ P]. cbv zeta in P.
  destruct P as [[_ [_ S]] | [T' _]]; [|congruence].
  destruct (call_tool_wire n a st) as [W [_ [C _]]]. cbv zeta in W, C.
  rewrite T in C.
  destruct (IH (snd (call_tool n a st))) as [IH1 IH2]; [now rewrite S|].
  split; [congruence|]. rewrite IH2, W, initialize_count_app, C. lia.
Qed.

(** X12: against an endpoint that answers every request, each reply
    carrying a non-empty token, a new client initializes during its first
    call, whatever the status of the replies, and never again: any
    non-empty sequence of calls puts exactly one initialization request on
    the wire. *)
Theorem initialization_happens_once_when_a_token_is_issued
    (h : str) (p : Z) (dbg : bool) (first : Call) (calls : list Call) :
  always_issues_session ->
  let st := call_tools (first :: calls) (fresh h p dbg) in
  initialize_count (wire st) = 1%nat /\
  truthy (session_id (self st)) = true.
Proof.
  intros AI. cbv zeta. destruct first as [n a]. cbn [call_tools].
  set (st0 := fresh h p dbg).
  destruct (call_tool_posts n a st0) as [_ P]. cbv zeta in P.
  destruct P as [[T _] | [_ [_ S]]]; [discriminate T|].
  destruct (AI (wire st0 ++ [Post (base_url (self st0))
                               (init_payload (request_id (self st0) + 2))
                               request_headers])) as [r [sid [E [Hd NE]]]].
  rewrite E, Hd in S.
  assert (T : truthy (session_id (self (snd (call_tool n a st0)))) = true).
  { rewrite S. destruct sid; [congruence | reflexivity]. }
  destruct (held_token_is_kept calls _ T) as [K1 K2].
  split; [|now rewrite K1].
  rewrite K2.
  destruct (call_tool_wire n a st0) as [W [_ [C _]]]. cbv zeta in W, C.
  rewrite W, initialize_count_app, C. reflexivity.
Qed.

(** X13: [initialize_session] called on its own takes the next id, sends
    one request without session header, and overwrites the token with the
    session header of whatever reply it gets: a reply without the header
    clears a held token, while a refused or timed-out connection keeps it. *)
Theorem initialize_session_overwrites_the_token (st : State) :
  let st' := snd (initialize_session st) in
  request_id (self st') = request_id (self st) + 1 /\
  posts (sent_between st st')
  = [(base_url (self st), init_payload (request_id (self st) + 1), request_headers)] /\
  session_id (self st')
  = match server (wire st') with
    | Replied r => headers_get (headers r) (py "mcp-session-id")
    | _ => session_id (self st)
    end /\
  fst (initialize_session st)
  = match server (wire st') with
    | ConnectFailed => Raise ConnectError
    | TimedOut => Raise TimeoutException
    | Replied r =>
        if is_success r then Ok tt else Raise (HTTPStatusError (status_code r))
    end.
Proof.
  cbv zeta. rewrite initialize_session_eq. unfold init_exchange.
  destruct st as [[u n d s h] w]. unfold sent_between.
  cbn [advance self wire opened set_request_id set_http_client request_id
       base_url session_id http_client].
  set (w' := w ++ [Post u (init_payload (n + 1)) request_headers]).
  destruct (server w') as [| |r] eqn:E;
    cbn [fst snd self wire request_id session_id set_session_id];
    rewrite E; unfold w'; rewrite skipn_app, skipn_all, Nat.sub_diag;
    now repeat split.
Qed.

End Sessions.

(** ** Event streams without payload *)

Lemma split_head_prefix (sep : char) (s l : str) (ls : list str) :
  split sep s = l :: ls -> exists post, s = l ++ post.
Proof.
  revert l ls; induction s as [|c s IH]; intros l ls E; simpl in E.
  - injection E as <- _. now exists [].
  - destruct (N.eqb c sep).
    + injection E as <- _. now exists (c :: s).
    + destruct (split sep s) as [|l0 ls0] eqn:E0.
      * injection E as <- _. now exists s.
      * injection E as <- _. destruct (IH l0 ls0 eq_refl) as [post ->].
        now exists post.
Qed.

(** Every line is a piece of the text. *)
Lemma split_In_substring (sep : char) (s l : str) :
  In l (split sep s) -> exists pre post, s = pre ++ l ++ post.
Proof.
  revert l; induction s as [|c s IH]; intros l I; simpl in I.
  - destruct I as [<- | []]. now exists [], [].
  - destruct (N.eqb c sep).
    + destruct I as [<- | I]; [now exists [], (c :: s)|].
      destruct (IH l I) as [pre [post ->]]. now exists (c :: pre), post.
    + destruct (split sep s) as [|l0 ls0] eqn:E0.
      * destruct I as [<- | []]. now exists [], s.
      * destruct I as [<- | I].
        -- destruct (split_head_prefix sep s E0) as [post ->].
           now exists [], post.
        -- destruct (IH l (or_intror I)) as [pre [post ->]].
           now exists (c :: pre), post.
Qed.

Lemma strip_substring (s : str) : exists pre post, s = pre ++ strip s ++ post.
Proof.
  destruct (lstrip_decompose s) as [ws1 [E1 _]].
  destruct (rstrip_decompose (lstrip s)) as [ws2 [E2 _]].
  exists ws1, ws2. unfold strip. now rewrite <- E2.
Qed.

Lemma filter_none (f : str -> bool) (l : list str) :
  (forall x, In x l -> f x = false) -> List.filter f l = [].
Proof.
  induction l as [|x l IH]; intros F; [reflexivity|].
  simpl. rewrite (F x (or_introl eq_refl)). apply IH.
  intros y I. apply F. now right.
Qed.

Lemma sse_json_data_without_marker (sse_text : str) :
  str_in (py "data: ") sse_text = false -> sse_json_data sse_text = [].
Proof.
  intros NI. rewrite sse_json_data_strip. unfold sse_payload, data_suffixes.
  assert (F : List.filter (startswith (py "data: ")) (split LF (strip sse_text)) = []).
  { apply filter_none. intros l I.
    destruct (startswith (py "data: ") l) eqn:S; [|reflexivity].
    apply startswith_spec in S as [rest ->].
    apply split_In_substring in I as [pre [post E]].
    destruct (strip_substring sse_text) as [pre' [post' E']].
    assert (O : str_in (py "data: ") sse_text = true).
    { apply str_in_spec. exists (pre' ++ pre), (rest ++ post ++ post').
      rewrite E', E. now rewrite <- !app_assoc. }
    congruence. }
  now rewrite F.
Qed.

(** X14: a body in which the marker [data: ], with its blank, occurs
    nowhere (an empty body, a stream of [event:] lines, or [data:] fields
    written without the blank) leaves the parser with the empty text, which
    the decoder rejects: the result is [JSONDecodeError]. *)
Theorem event_stream_without_marker_is_rejected
    `{RT : Runtime} (sse_text : str) :
  json_loads [] = None ->
  str_in (py "data: ") sse_text = false ->
  _parse_sse_response sse_text = Raise JSONDecodeError.
Proof.
  intros Empty NI. unfold _parse_sse_response, json_loads_res.
  now rewrite sse_json_data_without_marker, json_limit_empty, Empty.
Qed.

(** ** Commands *)

Lemma envelopes_posts (w : list Event) :
  envelopes w = List.map (fun post => snd (fst post)) (posts w).
Proof.
  induction w as [|[url env hdrs|] w IH]; simpl; [reflexivity | | exact IH].
  now rewrite IH.
Qed.

(** X15: neither flag and both flags ask for the same thing: the list of
    software types sent is never empty, holds [malware] unless only
    [--tools] was given and [tool] unless only [--malware] was given. *)
Theorem software_types_default_to_both (args : Namespace) :
  software_types args
  = (if malware args || negb (tools args) then [py "malware"] else [])
    ++ (if tools args || negb (malware args) then [py "tool"] else []) /\
  software_types args <> [].
Proof.
  unfold software_types.
  destruct (malware args), (tools args); split; try reflexivity; discriminate.
Qed.

Section Commands.
Context `{RT : Runtime}.

(** Every command is one [call_tool] with a tool and arguments the tests
    know, the domain among them. *)
Lemma func_request (c : Command) (args : Namespace) :
  exists tool d,
    (forall st, func c args st = call_tool tool (Some d) st) /\
    (forall rid, agrees_with_tests (tool_payload rid tool (Some d)) = true) /\
    dict_get d (py "domain") = Some (JStr (domain args)).
Proof.
  destruct c; unfold func, cmd_techniques, cmd_technique, cmd_tactics,
    cmd_groups, cmd_group, cmd_software, cmd_mitigations;
    try destruct (truthy (tactic args));
    try destruct (truthy (name args));
    eexists; eexists; (split; [reflexivity|]); split; reflexivity.
Qed.

(** X16: whatever the options, a command sends at most one tool-call
    envelope; its tool is one the integration tests import from the server,
    its arguments hold every keyword the tests pass to that tool, under the
    same name, and the [domain] argument is the [--domain] option.  Each
    tool the tests import is called by some command. *)
Theorem commands_call_the_tested_tools :
  (forall c args st,
     Forall (fun env =>
               is_tool_call env = true ->
               agrees_with_tests env = true /\
               exists tool arguments,
                 called_tool env = Some (tool, arguments) /\
                 dict_get arguments (py "domain") = Some (JStr (domain args)))
            (envelopes (sent_between st (snd (func c args st)))) /\
     (List.length (tool_call_ids (sent_between st (snd (func c args st)))) <= 1)%nat) /\
  (forall entry, In entry tested_tools ->
     exists c args arguments,
       forall st, func c args st = call_tool (fst entry) (Some arguments) st).
Proof.
  split.
  - intros c args st.
    destruct (func_request c args) as [tool [d [F [A D]]]]. rewrite F.
    split.
    + rewrite envelopes_posts.
      destruct (call_tool_posts tool (Some d) st) as [_ P]. cbv zeta in P.
      assert (T : forall rid,
                is_tool_call (tool_payload rid tool (Some d)) = true ->
                agrees_with_tests (tool_payload rid tool (Some d)) = true /\
                exists t a, called_tool (tool_payload rid tool (Some d)) = Some (t, a) /\
                            dict_get a (py "domain") = Some (JStr (domain args))).
      { intros rid _. split; [apply A|]. now exists tool, d. }
      destruct P as [[_ [Sent _]] | [_ [[Sent | Sent] _]]]; rewrite Sent;
        cbn [List.map fst snd].
      * constructor; [apply T | constructor].
      * constructor; [discriminate | constructor].
      * constructor; [discriminate | constructor; [apply T | constructor]].
    + destruct (call_tool_wire tool (Some d) st) as [_ [_ [_ [-> | [-> _]]]]];
        cbn; lia.
  - intros entry I.
    set (with_tactic := mkNamespace [] 0 false false None [] false
                          (Some (py "persistence")) false false 0 0 None None
                          false false).
    set (with_name := mkNamespace [] 0 false false None [] false None false
                        false 0 0 None (Some (py "APT29")) false false).
    unfold tested_tools in I.
    destruct I as [<- | [<- | [<- | [<- | [<- | [<- | [<- | [<- | [<- | []]]]]]]]]].
    + exists Techniques, tactics_args. eexists. intros st. reflexivity.
    + exists Tactics, tactics_args. eexists. intros st. reflexivity.
    + exists Groups, tactics_args. eexists. intros st. reflexivity.
    + exists Software, tactics_args. eexists. intros st. reflexivity.
    + exists Techniques, with_tactic. eexists. intros st. reflexivity.
    + exists Group, tactics_args. eexists. intros st. reflexivity.
    + exists Mitigations, tactics_args. eexists. intros st. reflexivity.
    + exists Mitigations, with_name. eexists. intros st. reflexivity.
    + exists Technique, tactics_args. eexists. intros st. reflexivity.
Qed.


End Commands.

(** ** The entry point *)

Lemma close_open_handle (st : State) (handle : AsyncClient) :
  http_client (self st) = Some handle ->
  snd (close st) = mkState (set_http_client (self st) None) (wire st ++ [Aclose]).
Proof. destruct st as [[u n d s h] w]. cbn. now intros ->. Qed.

Section EntryPoint.
Context `{RT : Runtime}.

(** X19: a run with a sub-command always starts with the initialization
    request, which carries id 2, sends the tool call with id 1 after it
    unless initialization raised, and then closes the connection, exactly
    once and also when the command failed.  Without a sub-command no client
    is created and nothing is sent. *)
Theorem main_closes_the_connection (args : Namespace) :
  (forall c, command args = Some c ->
     exists st sent,
       client (main args) = Some st /\
       http_client (self st) = None /\
       wire st = sent ++ [Aclose] /\
       ~ In Aclose sent /\
       (request_ids sent = [2; 1] \/
        request_ids sent = [2] /\ exit_code (main args) = 1)) /\
  (command args = None -> client (main args) = None).
Proof.
  split.
  - intros c C. unfold main. rewrite C.
    destruct (func_request c args) as [tool [d [F _]]]. rewrite F.
    set (st0 := fresh (host args) (port args) (args_debug args)).
    destruct (call_tool_leaves_handle_aux tool (Some d) st0) as [handle Hh].
    destruct (call_tool_shape tool (Some d) st0) as [_ Hs]. cbv zeta in Hs.
    destruct Hs as [[T _] | [[_ [_ [W [e [X _]]]]] | [_ [_ [hd W]]]]];
      [discriminate T | |].
    + destruct (call_tool tool (Some d) st0) as [[v|e'] st'];
        cbn [fst snd] in *; [discriminate X|].
      cbn [client exit_code].
      rewrite (close_open_handle _ Hh), W. eexists. eexists.
      split; [reflexivity|]. split; [reflexivity|]. split; [reflexivity|].
      split; [intros [I | []]; discriminate I|]. right. now split.
    + assert (E : exists st,
                client (match call_tool tool (Some d) st0 with
                        | (Ok result, st) =>
                            mkRun 0 [format_output result (negb (no_pretty args))]
                                  (Some (snd (close st)))
                        | (Raise _, st) => mkRun 1 [] (Some (snd (close st)))
                        end) = Some st /\
                st = snd (close (snd (call_tool tool (Some d) st0)))).
      { destruct (call_tool tool (Some d) st0) as [[v|e'] st']; eexists; now split. }
      destruct E as [st [E ->]]. rewrite E.
      rewrite (close_open_handle _ Hh), W. eexists. eexists.
      split; [reflexivity|]. split; [reflexivity|]. split; [reflexivity|].
      split; [intros [I | [I | []]]; discriminate I|]. now left.
  - intros C. unfold main. now rewrite C.
Qed.

End EntryPoint.

(** ** Worked examples for the further properties *)

Lemma test_connection_probes_host_and_port_witness :
  ~ In SLASH (py "localhost") /\
  test_connection (PB := not_found_probe) demo = (Ok true, demo).
Proof.
  assert (NS : ~ In SLASH (py "localhost")).
  { intros I. vm_compute in I.
    repeat (destruct I as [I | I]; [discriminate I|]). exact I. }
  split; [exact NS|].
  exact (@test_connection_probes_host_and_port not_found_probe
           (py "localhost") 8000 false [] NS).
Defined.

Lemma initialization_request_goes_first_witness :
  truthy (session_id (self demo)) = false /\
  (List.map is_initialize
     (envelopes (sent_between demo
        (snd (call_tool (RT := reference session_server)
                (py "get_tactics") None demo)))) = [true; false] /\
   request_ids (sent_between demo
      (snd (call_tool (RT := reference session_server)
              (py "get_tactics") None demo))) = [0 + 2; 0 + 1]
   \/
   request_ids (sent_between demo
      (snd (call_tool (RT := reference session_server)
              (py "get_tactics") None demo))) = [0 + 2] /\
   exists e,
     fst (call_tool (RT := reference session_server) (py "get_tactics") None demo)
     = Raise e /\ isinstance e HTTPError_ = true).
Proof.
  split; [reflexivity|].
  exact (@initialization_request_goes_first (reference session_server)
           (py "get_tactics") None demo eq_refl).
Defined.

Lemma returned_envelope_has_no_error_witness :
  fst (call_tool (RT := reference session_server) (py "get_tactics") None demo)
  = Ok (JDict ok_envelope) /\
  exists r,
    session_server
      (wire (snd (call_tool (RT := reference session_server)
                    (py "get_tactics") None demo))) = Replied r /\
    is_success r = true /\
    parse_body (RT := reference session_server) r = Ok (JDict ok_envelope) /\
    py_in (py "error") (JDict ok_envelope) = Ok false /\
    forall d, JDict ok_envelope = JDict d -> dict_get d (py "error") = None.
Proof.
  split; [reflexivity|].
  exact (@returned_envelope_has_no_error (reference session_server)
           (py "get_tactics") None demo (JDict ok_envelope) eq_refl).
Defined.

Lemma decoded_body_raises_only_witness :
  null_error_server [] = Replied null_error_response /\
  is_success null_error_response = true /\
  parse_body (RT := reference null_error_server) null_error_response
  = Ok (JDict null_error_envelope) /\
  fst (call_tool (RT := reference null_error_server) (py "get_tactics") None demo)
  = Raise AttributeError /\
  ((exists d err,
      JDict null_error_envelope = JDict d /\
      dict_get d (py "error") = Some (JDict err) /\
      AttributeError
      = ValueError [ FLit (py "JSON-RPC Error ");
                     FVal (dict_get err (py "code"));
                     FLit (py ": ");
                     FVal (dict_get err (py "message")) ]) \/
   (AttributeError = AttributeError /\
    exists d x, JDict null_error_envelope = JDict d /\
                dict_get d (py "error") = Some x /\
                forall err, x <> JDict err) \/
   (AttributeError = TypeError /\ forall d, JDict null_error_envelope <> JDict d)).
Proof.
  do 4 (split; [reflexivity|]).
  exact (@decoded_body_raises_only (reference null_error_server)
           (py "get_tactics") None demo null_error_response
           (JDict null_error_envelope) AttributeError
           eq_refl eq_refl eq_refl eq_refl).
Defined.

Lemma error_member_that_is_no_mapping_witness :
  null_error_server [] = Replied null_error_response /\
  is_success null_error_response = true /\
  parse_body (RT := reference null_error_server) null_error_response
  = Ok (JDict null_error_envelope) /\
  dict_get null_error_envelope (py "error") = Some JNull /\
  (forall err, JNull <> JDict err) /\
  fst (call_tool (RT := reference null_error_server) (py "get_tactics") None demo)
  = Raise AttributeError.
Proof.
  assert (NM : forall err, JNull <> JDict err) by discriminate.
  repeat (split; [reflexivity|]). split; [exact NM|].
  exact (@error_member_that_is_no_mapping (reference null_error_server)
           (py "get_tactics") None demo null_error_response null_error_envelope
           JNull eq_refl eq_refl eq_refl eq_refl NM).
Defined.

Lemma body_that_is_no_mapping_witness :
  array_server [] = Replied array_response /\
  is_success array_response = true /\
  parse_body (RT := reference array_server) array_response
  = Ok (JList [JInt 1; JInt 2]) /\
  (forall d, JList [JInt 1; JInt 2] <> JDict d) /\
  fst (call_tool (RT := reference array_server) (py "get_tactics") None demo)
  = Ok (JList [JInt 1; JInt 2]).
Proof.
  assert (NM : forall d, JList [JInt 1; JInt 2] <> JDict d) by discriminate.
  repeat (split; [reflexivity|]). split; [exact NM|].
  exact (@body_that_is_no_mapping (reference array_server)
           (py "get_tactics") None demo array_response (JList [JInt 1; JInt 2])
           eq_refl eq_refl eq_refl NM).
Defined.

Lemma session_server_always_issues_session :
  always_issues_session (RT := reference session_server).
Proof.
  intros w. exists ok_response, (py "s1").
  split; [reflexivity|]. split; [reflexivity | discriminate].
Defined.

Lemma initialization_happens_once_when_a_token_is_issued_witness :
  always_issues_session (RT := reference session_server) /\
  initialize_count
    (wire (call_tools (RT := reference session_server)
             [get_tactics; get_tactics; get_tactics] demo)) = 1%nat /\
  truthy (session_id
            (self (call_tools (RT := reference session_server)
                     [get_tactics; get_tactics; get_tactics] demo))) = true.
Proof.
  split; [exact session_server_always_issues_session|].
  exact (@initialization_happens_once_when_a_token_is_issued
           (reference session_server) (py "localhost") 8000 false
           get_tactics [get_tactics; get_tactics]
           session_server_always_issues_session).
Defined.

Lemma event_stream_without_marker_is_rejected_witness :
  Decoder.loads [] = None /\
  str_in (py "data: ") (py "event: message" ++ [LF] ++ qq "data:{'id':1}") = false /\
  _parse_sse_response (RT := reference unreachable_server)
    (py "event: message" ++ [LF] ++ qq "data:{'id':1}")
  = Raise JSONDecodeError.
Proof.
  split; [reflexivity|]. split; [reflexivity|].
  exact (@event_stream_without_marker_is_rejected (reference unreachable_server)
           (py "event: message" ++ [LF] ++ qq "data:{'id':1}") eq_refl eq_refl).
Defined.

